(** * JBerry: the double-dummy solve pipeline of Solver.py and main.py

    A shallow embedding of [BridgeSolver] (Solver.py) and of the [/api/solve]
    handler (main.py), followed by the properties of the pipeline.

    Conventions of the embedding.
    - A Python [int] is a [Z]; an index into a fixed-size ctypes array is a
      [nat].
    - A Python [str] is a Rocq [string].  Card tokens are ASCII text, one
      character per [ascii].  Text decoded from an engine buffer is kept as
      the string of its UTF-8 bytes: [':'] is a single byte that never occurs
      inside a multi-byte sequence, so [in] and [split] on it agree with the
      code-point view.
    - A Python [dict] is an association list in insertion order.
    - An [Exception] instance is identified by the text [str(e)] gives.
    - The engine (libdds.so) is a pair of functions that may return or raise;
      every call is logged so that its absence can be stated. *)

From Stdlib Require Import ZArith Lia Bool String Ascii Strings.Byte List
  DecimalString Permutation.
From stdpp Require Import base list.

Open Scope string_scope.
Open Scope Z_scope.

(** ** Python built-ins used by the source *)

Module Py.

(** [str(n)] on an int. *)
Definition str_int (n : Z) : string := NilEmpty.string_of_int (Z.to_int n).

(** [c.upper()] on one ASCII character. *)
Definition upper_char (c : ascii) : ascii :=
  let n := nat_of_ascii c in
  if ((97 <=? n) && (n <=? 122))%nat then ascii_of_nat (n - 32) else c.

(** [s.upper()]. *)
Fixpoint upper (s : string) : string :=
  match s with
  | EmptyString => EmptyString
  | String c r => String (upper_char c) (upper r)
  end.

(** [k in d] and [d[k]] on a dict with string keys; the first binding wins,
    and keys of a dict are unique anyway. *)
Fixpoint dict_get {V : Type} (k : string) (d : list (string * V)) : option V :=
  match d with
  | [] => None
  | (k', v) :: r => if String.eqb k k' then Some v else dict_get k r
  end.

(** [d[k] = v]: overwrite in place, or append a new key. *)
Fixpoint dict_set {V : Type} (k : string) (v : V) (d : list (string * V))
  : list (string * V) :=
  match d with
  | [] => [(k, v)]
  | (k', v') :: r =>
      if String.eqb k k' then (k, v) :: r else (k', v') :: dict_set k v r
  end.

(** [l[i]] on a Python list: negative indices count from the end, [None] is
    IndexError. *)
Definition list_index {A : Type} (l : list A) (i : Z) : option A :=
  let n := Z.of_nat (length l) in
  if (0 <=? i) && (i <? n) then l !! Z.to_nat i
  else if (- n <=? i) && (i <? 0) then l !! Z.to_nat (n + i)
  else None.

(** [c in s] for a one-character [c]. *)
Fixpoint char_in (c : ascii) (s : string) : bool :=
  match s with
  | EmptyString => false
  | String a r => Ascii.eqb a c || char_in c r
  end.

(** [s.split(c)] for a one-character separator: k separators give k+1
    pieces, empty pieces included. *)
Fixpoint split (c : ascii) (s : string) : list string :=
  match s with
  | EmptyString => [EmptyString]
  | String a r =>
      if Ascii.eqb a c then EmptyString :: split c r
      else match split c r with
           | [] => [String a EmptyString]
           | p :: ps => String a p :: ps
           end
  end.

(** [buf.value] on a ctypes char array: the bytes before the first NUL, or
    the whole buffer when it holds none. *)
Fixpoint value (buf : list byte) : list byte :=
  match buf with
  | [] => []
  | b :: r => if Byte.eqb b x00 then [] else b :: value r
  end.

(** Continuation byte 80..BF, and the general range test. *)
Definition in_range (lo hi : N) (b : byte) : bool :=
  ((lo <=? Byte.to_N b) && (Byte.to_N b <=? hi))%N.

Definition cont (b : byte) : bool := in_range 128 191 b.

(** Well-formed UTF-8 as the strict codec accepts it: shortest form only, no
    surrogates, nothing above U+10FFFF. *)
Fixpoint utf8_valid (bs : list byte) : bool :=
  match bs with
  | [] => true
  | b0 :: r =>
      if in_range 0 127 b0 then utf8_valid r
      else if in_range 194 223 b0 then
        match r with
        | b1 :: r1 => cont b1 && utf8_valid r1
        | _ => false
        end
      else if in_range 224 239 b0 then
        match r with
        | b1 :: b2 :: r2 =>
            (if Byte.eqb b0 xe0 then in_range 160 191 b1
             else if Byte.eqb b0 xed then in_range 128 159 b1
             else cont b1)
            && cont b2 && utf8_valid r2
        | _ => false
        end
      else if in_range 240 244 b0 then
        match r with
        | b1 :: b2 :: b3 :: r3 =>
            (if Byte.eqb b0 xf0 then in_range 144 191 b1
             else if Byte.eqb b0 xf4 then in_range 128 143 b1
             else cont b1)
            && cont b2 && cont b3 && utf8_valid r3
        | _ => false
        end
      else false
  end.

End Py.

(** ** Solver.py *)

Module Solver.
Import Py.

(** *** The engine's structures (Solver.py, lines 7-24) *)

(** [unsigned int cards[4][4]], indexed [player][suit]. *)
Record ddTableDeal := { cards : list (list Z) }.

(** [int resTable[5][4]], indexed [strain][player]. *)
Record ddTableResults := { resTable : list (list Z) }.

(** [char parScore[2][16]] and [char parContractsString[2][128]]: one buffer
    per side. *)
Record parResults := {
  parScore : list byte * list byte;
  parContractsString : list byte * list byte
}.

(** A freshly constructed ctypes structure is zero-filled. *)
Definition new_ddTableDeal : ddTableDeal :=
  {| cards := replicate 4 (replicate 4 0) |}.

Definition new_ddTableResults : ddTableResults :=
  {| resTable := replicate 5 (replicate 4 0) |}.

Definition new_parResults : parResults :=
  {| parScore := (replicate 16 x00, replicate 16 x00);
     parContractsString := (replicate 128 x00, replicate 128 x00) |}.

(** [table.resTable[i][j]]; the array has its fixed shape, a cell outside it
    is never read. *)
Definition cell (table : ddTableResults) (i j : nat) : Z :=
  nth j (nth i (resTable table) []) 0.

(** *** Exceptions *)

Definition exn := string.

Inductive outcome (A : Type) : Type :=
| Ret (a : A)
| Raise (e : exn).
Arguments Ret {A} a.
Arguments Raise {A} e.

(** [l[i]] inside the code: IndexError when out of range. *)
Definition index {A : Type} (l : list A) (i : Z) : outcome A :=
  match list_index l i with
  | Some x => Ret x
  | None => Raise "list index out of range"
  end.

Definition index_nat {A : Type} (l : list A) (i : nat) : outcome A :=
  match l !! i with
  | Some x => Ret x
  | None => Raise "list index out of range"
  end.

(** *** The engine, [self.lib]

    Each entry point receives the memory behind its pointer arguments and
    gives back the return code with that memory as the call left it. *)
Record dds := {
  CalcDDtable : ddTableDeal -> ddTableResults -> outcome (Z * ddTableResults);
  Par : ddTableResults -> parResults -> Z
        -> outcome (Z * ddTableResults * parResults)
}.

Inductive call : Type :=
| Call_CalcDDtable (tableDeal : ddTableDeal)
| Call_Par (tablep : ddTableResults) (vulnerable : Z).

(** *** The mappings of [__init__] (lines 58-68) *)

Definition SuitMap : list (string * nat) :=
  [("S", 0); ("H", 1); ("D", 2); ("C", 3)]%nat.

Definition HandMap : list (string * nat) :=
  [("N", 0); ("E", 1); ("S", 2); ("W", 3)]%nat.

Definition RankMap : list (string * Z) :=
  [("2", Z.shiftl 1 2); ("3", Z.shiftl 1 3); ("4", Z.shiftl 1 4);
   ("5", Z.shiftl 1 5); ("6", Z.shiftl 1 6); ("7", Z.shiftl 1 7);
   ("8", Z.shiftl 1 8); ("9", Z.shiftl 1 9); ("T", Z.shiftl 1 10);
   ("J", Z.shiftl 1 11); ("Q", Z.shiftl 1 12); ("K", Z.shiftl 1 13);
   ("A", Z.shiftl 1 14)].

(** *** [get_vulnerability] (lines 81-91) *)

Definition vul_pattern : list Z :=
  [0; 1; 2; 3; 1; 2; 3; 0; 2; 3; 0; 1; 3; 0; 1; 2].

Definition get_vulnerability (round : Z) : outcome Z :=
  index vul_pattern ((round - 1) mod 16).

(** *** The response envelope (lines 184-193) *)

Record par_result_t := {
  vulnerability : string;
  optimal_contract : string;
  score : string
}.

Definition dd_table_t : Type := list (string * list (string * Z)).

Record envelope := {
  status : string;
  message : string;
  dd_table : dd_table_t;
  par_result : par_result_t
}.

Definition default_result_data : envelope :=
  {| status := "error";
     message := "";
     dd_table := [];
     par_result := {| vulnerability := "Unknown";
                      optimal_contract := "-";
                      score := "0" |} |}.

(** *** The encoding loop of [solve] (lines 200-215) *)

Definition hands : Type := list (string * list string).

(** [deal.cards[p_idx][suit_idx] |= bit], stored back into a 32-bit cell. *)
Definition or_card (p_idx suit_idx : nat) (bit : Z) (deal : ddTableDeal)
  : ddTableDeal :=
  {| cards := alter (alter (fun m => Z.lor m bit mod 2 ^ 32) suit_idx) p_idx
                    (cards deal) |}.

(** The body of [for card in cards]. *)
Definition add_card (p_idx : nat) (acc : ddTableDeal * Z) (card : string)
  : ddTableDeal * Z :=
  let '(deal, total_cards) := acc in
  if (String.length card <? 2)%nat then acc
  else
    match String.get 0 card, String.get 1 card with
    | Some c0, Some c1 =>
        let rank_char := upper (String c0 EmptyString) in
        let suit_char := upper (String c1 EmptyString) in
        match dict_get rank_char RankMap, dict_get suit_char SuitMap with
        | Some bit, Some suit_idx =>
            (or_card p_idx suit_idx bit deal, total_cards + 1)
        | _, _ => acc
        end
    | _, _ => acc
    end.

(** The body of [for player, cards in hands_dict.items()]. *)
Definition add_hand (acc : ddTableDeal * Z) (item : string * list string)
  : ddTableDeal * Z :=
  let '(player, cards) := item in
  match dict_get player HandMap with
  | None => acc
  | Some p_idx => fold_left (add_card p_idx) cards acc
  end.

Definition encode_loop (hands_dict : hands) (acc : ddTableDeal * Z)
  : ddTableDeal * Z :=
  fold_left add_hand hands_dict acc.

Definition build_deal (hands_dict : hands) : ddTableDeal * Z :=
  encode_loop hands_dict (new_ddTableDeal, 0).

(** *** Building [structured_dd] (lines 253-264) *)

Definition suits_str : list string := ["Pik"; "Kier"; "Karo"; "Trefl"; "NT"].

Definition display_order : list nat := [4; 0; 1; 2; 3]%nat.

Fixpoint display_loop (order : list nat) (table : ddTableResults)
  (structured_dd : dd_table_t) : outcome dd_table_t :=
  match order with
  | [] => Ret structured_dd
  | s_idx :: rest =>
      match index_nat suits_str s_idx with
      | Raise e => Raise e
      | Ret suit_name =>
          display_loop rest table
            (dict_set suit_name
               [("N", cell table s_idx 0); ("E", cell table s_idx 1);
                ("S", cell table s_idx 2); ("W", cell table s_idx 3)]
               structured_dd)
      end
  end.

(** *** The run of one [solve] call

    [result_data] is mutated in place while the body runs and the engine is
    called along the way, so the body is a computation over the current
    [result_data] and the log of engine calls, which returns or raises. *)

Record run := {
  result_data : envelope;
  calls : list call
}.

(** On entry [result_data] holds the defaults and no call has been made. *)
Definition start : run :=
  {| result_data := default_result_data; calls := [] |}.

Definition M (A : Type) : Type := run -> run * outcome A.

Definition ret {A : Type} (a : A) : M A := fun r => (r, Ret a).

Definition bind {A B : Type} (m : M A) (k : A -> M B) : M B :=
  fun r =>
    match m r with
    | (r', Ret a) => k a r'
    | (r', Raise e) => (r', Raise e)
    end.

Definition lift {A : Type} (o : outcome A) : M A := fun r => (r, o).

Declare Scope run_scope.
Delimit Scope run_scope with run.
Notation "'let*' x ':=' m 'in' k" := (bind m (fun x => k))
  (at level 10, x pattern, m at level 100, k at level 200) : run_scope.
Notation "m ;; k" := (bind m (fun _ => k))
  (at level 100, right associativity) : run_scope.

(** [result_data[...] = ...] *)
Definition set_message (msg : string) : M unit :=
  fun r =>
    ({| result_data := {| status := status (result_data r);
                          message := msg;
                          dd_table := dd_table (result_data r);
                          par_result := par_result (result_data r) |};
        calls := calls r |}, Ret tt).

Definition set_status (s : string) : M unit :=
  fun r =>
    ({| result_data := {| status := s;
                          message := message (result_data r);
                          dd_table := dd_table (result_data r);
                          par_result := par_result (result_data r) |};
        calls := calls r |}, Ret tt).

Definition set_dd_table (d : dd_table_t) : M unit :=
  fun r =>
    ({| result_data := {| status := status (result_data r);
                          message := message (result_data r);
                          dd_table := d;
                          par_result := par_result (result_data r) |};
        calls := calls r |}, Ret tt).

Definition set_par_result (p : par_result_t) : M unit :=
  fun r =>
    ({| result_data := {| status := status (result_data r);
                          message := message (result_data r);
                          dd_table := dd_table (result_data r);
                          par_result := p |};
        calls := calls r |}, Ret tt).

Section WithEngine.

(** [self.lib], and the text of the UnicodeDecodeError that the interpreter
    raises for a byte string that is not UTF-8. *)
Variable lib : dds.
Variable UnicodeDecodeError : list byte -> exn.

(** [self.lib.CalcDDtable(deal, ctypes.byref(table))] *)
Definition call_CalcDDtable (deal : ddTableDeal) (table : ddTableResults)
  : M (Z * ddTableResults) :=
  fun r =>
    ({| result_data := result_data r;
        calls := calls r ++ [Call_CalcDDtable deal] |},
     CalcDDtable lib deal table).

(** [self.lib.Par(ctypes.byref(table), ctypes.byref(pres), vul_val)] *)
Definition call_Par (table : ddTableResults) (pres : parResults) (vul_val : Z)
  : M (Z * ddTableResults * parResults) :=
  fun r =>
    ({| result_data := result_data r;
        calls := calls r ++ [Call_Par table vul_val] |},
     Par lib table pres vul_val).

(** [b.decode('utf-8')] *)
Definition decode_utf8 (b : list byte) : outcome string :=
  if utf8_valid b then Ret (string_of_list_byte b)
  else Raise (UnicodeDecodeError b).

(** [_format_contract] (lines 70-79) *)
Definition _format_contract (raw_bytes_array : list byte) : outcome string :=
  match decode_utf8 (value raw_bytes_array) with
  | Raise e => Raise e
  | Ret s => if char_in ":" s then index (split ":" s) 1 else Ret s
  end.

(** The inner [try] of [solve] (lines 243-248), entered with the locals
    [contract] and [score]; it leaves their new values. *)
Definition decode_par (pres : parResults) (contract score : string)
  : string * string :=
  match _format_contract (fst (parContractsString pres)) with
  | Raise decode_err => ("Decode Error: " ++ decode_err, score)
  | Ret contract' =>
      match decode_utf8 (value (fst (parScore pres))) with
      | Raise decode_err => ("Decode Error: " ++ decode_err, score)
      | Ret score' => (contract', score')
      end
  end.

Open Scope run_scope.

(** The [try] body of [solve] (lines 196-273).  Both [return result_data]
    inside it and falling off its end give back the same object, so the body
    returns nothing and [solve] reads [result_data] afterwards. *)
Definition solve_try (hands_dict : hands) (round_num : Z) : M unit :=
  let '(deal, total_cards) := build_deal hands_dict in
  if negb (total_cards =? 52) then
    set_message ("Invalid card count: " ++ str_int total_cards)
  else
    let* (res_dd, table) := call_CalcDDtable deal new_ddTableResults in
    if negb (res_dd =? 1) then
      set_message ("DDS CalcDDtable Error: " ++ str_int res_dd)
    else
      let* vul_val := lift (get_vulnerability round_num) in
      let* vuln_str := lift (index ["None"; "NS"; "EW"; "Both"] vul_val) in
      let* (res_par, table, pres) := call_Par table new_parResults vul_val in
      let contract := "-" in
      let score := "0" in
      let* (contract, score) :=
        if res_par =? 1 then ret (decode_par pres contract score)
        else (set_message ("DDS Par Error: " ++ str_int res_par) ;;
              ret (contract, score)) in
      let* structured_dd := lift (display_loop display_order table []) in
      set_status "ok" ;;
      set_dd_table structured_dd ;;
      set_par_result {| vulnerability := vuln_str;
                        optimal_contract := contract;
                        score := score |}.

(** The [except Exception as e] of [solve] (lines 275-276) and its final
    [return result_data]. *)
Definition solve_run (hands_dict : hands) (round_num : Z) : run :=
  match solve_try hands_dict round_num start with
  | (r, Ret _) => r
  | (r, Raise e) => fst (set_message ("Python Exception: " ++ e) r)
  end.

Definition solve (hands_dict : hands) (round_num : Z) : envelope :=
  result_data (solve_run hands_dict round_num).

(** The engine calls made during [solve], in order. *)
Definition engine_calls (hands_dict : hands) (round_num : Z) : list call :=
  calls (solve_run hands_dict round_num).

End WithEngine.

End Solver.

(** ** main.py: the [/api/solve] handler *)

Module Main.
Import Py Solver.

(** A record of [HISTORY_LOG] (lines 163-170). *)
Record entry := {
  id : string;
  time : string;
  round : Z;
  contract : string;
  score : string;
  bid_contract : string
}.

(** The module globals the handler reads and writes (lines 14-22). *)
Record globals := {
  GLOBAL_CONFIG_round : Z;
  HISTORY_LOG : list entry;
  CURRENT_HANDS : hands
}.

Definition initial_hands : hands :=
  [("N", ["AS"; "KS"; "QS"; "JS"; "TS"; "9S"; "8S"; "7S"; "6S"; "5S"; "4S";
          "3S"; "2S"]);
   ("E", ["AH"; "KH"; "QH"; "JH"; "TH"; "9H"; "8H"; "7H"; "6H"; "5H"; "4H";
          "3H"; "2H"]);
   ("S", ["AD"; "KD"; "QD"; "JD"; "TD"; "9D"; "8D"; "7D"; "6D"; "5D"; "4D";
          "3D"; "2D"]);
   ("W", ["AC"; "KC"; "QC"; "JC"; "TC"; "9C"; "8C"; "7C"; "6C"; "5C"; "4C";
          "3C"; "2C"])].

Definition initial_globals : globals :=
  {| GLOBAL_CONFIG_round := 1;
     HISTORY_LOG := [];
     CURRENT_HANDS := initial_hands |}.

Section WithEngine.

Variable bridge_solver_lib : dds.
Variable UnicodeDecodeError : list byte -> exn.

(** [solve_api] (lines 151-173).  [data] is the JSON body of the request,
    [uuid4] and [now] are what [uuid.uuid4()] and the clock give on this
    request.  The result is the globals after the request and the envelope
    sent back. *)
Definition solve_api (g : globals) (data : list (string * string))
  (uuid4 now : string) : globals * envelope :=
  let current_round := GLOBAL_CONFIG_round g in
  let bid_contract := default "none" (dict_get "bid_contract" data) in
  let result :=
    solve bridge_solver_lib UnicodeDecodeError (CURRENT_HANDS g)
      current_round in
  if String.eqb (status result) "ok" then
    let entry :=
      {| id := uuid4;
         time := now;
         round := current_round;
         contract := optimal_contract (par_result result);
         score := Solver.score (par_result result);
         bid_contract := bid_contract |} in
    ({| GLOBAL_CONFIG_round := GLOBAL_CONFIG_round g;
        HISTORY_LOG := HISTORY_LOG g ++ [entry];
        CURRENT_HANDS := CURRENT_HANDS g |}, result)
  else (g, result).

End WithEngine.

End Main.

(** ** Notions the properties are stated with *)

Module Notions.
Import Py Solver.

(** The (player, card) pairs of a hands mapping, in the order the encoding
    loop meets them. *)
Definition tokens (hands_dict : hands) : list (string * string) :=
  flat_map (fun item => map (pair (fst item)) (snd item)) hands_dict.

(** A card token as the data model has it: at least two characters, a rank
    character among 2-9, T, J, Q, K, A and then a suit character among S, H,
    D, C, in either case. *)
Definition is_rank (c : ascii) : bool :=
  existsb (Ascii.eqb c) (list_ascii_of_string "23456789TJQKA").

Definition is_suit (c : ascii) : bool :=
  existsb (Ascii.eqb c) (list_ascii_of_string "SHDC").

Definition valid_token (card : string) : bool :=
  match card with
  | String r (String s _) => is_rank (upper_char r) && is_suit (upper_char s)
  | _ => false
  end.

Definition is_seat (player : string) : bool :=
  existsb (String.eqb player) ["N"; "E"; "S"; "W"].

Definition accepted (t : string * string) : bool :=
  is_seat (fst t) && valid_token (snd t).

(** The number of tokens the encoding loop accepts. *)
Definition accepted_count (hands_dict : hands) : Z :=
  Z.of_nat (length (List.filter accepted (tokens hands_dict))).

(** Set bits of a 32-bit mask, and of a whole deal. *)
Definition popcount (m : Z) : Z :=
  Z.of_nat (length (List.filter (Z.testbit m) (map Z.of_nat (seq 0 32)))).

Definition deal_popcount (deal : ddTableDeal) : Z :=
  fold_right Z.add 0 (map popcount (concat (cards deal))).

(** [sub] occurs in [s]. *)
Definition contains (sub s : string) : Prop :=
  exists pre post, s = pre ++ sub ++ post.

(** The label [solve] reports for a round (lines 232-233). *)
Definition vulnerability_label (round : Z) : outcome string :=
  match get_vulnerability round with
  | Ret vul_val => index ["None"; "NS"; "EW"; "Both"] vul_val
  | Raise e => Raise e
  end.

(** The trick table in display order, as [solve] lays it out. *)
Definition row (table : ddTableResults) (s_idx : nat) : list (string * Z) :=
  [("N", cell table s_idx 0); ("E", cell table s_idx 1);
   ("S", cell table s_idx 2); ("W", cell table s_idx 3)].

Definition decoded_table (table : ddTableResults) : dd_table_t :=
  [("NT", row table 4); ("Pik", row table 0); ("Kier", row table 1);
   ("Karo", row table 2); ("Trefl", row table 3)].

(** The run reaches the trick stage and [CalcDDtable] returns [res_dd],
    leaving [table]. *)
Definition CalcDDtable_returns (lib : dds) (hands_dict : hands)
  (res_dd : Z) (table : ddTableResults) : Prop :=
  snd (build_deal hands_dict) = 52 /\
  CalcDDtable lib (fst (build_deal hands_dict)) new_ddTableResults
    = Ret (res_dd, table).

(** The par call of the run, made on [table] for the round, returns
    [res_par], leaving [table'] and [pres]. *)
Definition Par_returns (lib : dds) (table : ddTableResults) (round_num : Z)
  (res_par : Z) (table' : ddTableResults) (pres : parResults) : Prop :=
  exists vul_val,
    get_vulnerability round_num = Ret vul_val /\
    Par lib table new_parResults vul_val = Ret (res_par, table', pres).

(** The text after the first [c] of a string (nothing when it has none), and
    the text before it (everything when it has none). *)
Fixpoint after_first (c : ascii) (s : string) : string :=
  match s with
  | EmptyString => EmptyString
  | String a r => if Ascii.eqb a c then r else after_first c r
  end.

Fixpoint before_first (c : ascii) (s : string) : string :=
  match s with
  | EmptyString => EmptyString
  | String a r =>
      if Ascii.eqb a c then EmptyString else String a (before_first c r)
  end.

(** Removing a seat-pair prefix: all the text after the first colon, a
    string without a colon unchanged. *)
Definition strip_prefix (s : string) : string :=
  if char_in ":" s then after_first ":" s else s.

(** What one (player, card) pair of the loop does to the mask table. *)
Definition place (deal : ddTableDeal) (t : string * string) : ddTableDeal :=
  fst (add_hand (deal, 0) (fst t, [snd t])).

End Notions.

(** ** Sample deals and engines *)

Module Samples.
Import Py Solver.

(** [CURRENT_HANDS] without West's last card: 51 tokens. *)
Definition hands_51 : hands :=
  [("N", ["AS"; "KS"; "QS"; "JS"; "TS"; "9S"; "8S"; "7S"; "6S"; "5S"; "4S";
          "3S"; "2S"]);
   ("E", ["AH"; "KH"; "QH"; "JH"; "TH"; "9H"; "8H"; "7H"; "6H"; "5H"; "4H";
          "3H"; "2H"]);
   ("S", ["AD"; "KD"; "QD"; "JD"; "TD"; "9D"; "8D"; "7D"; "6D"; "5D"; "4D";
          "3D"; "2D"]);
   ("W", ["AC"; "KC"; "QC"; "JC"; "TC"; "9C"; "8C"; "7C"; "6C"; "5C"; "4C";
          "3C"])].

(** [CURRENT_HANDS] with North's deuce of spades replaced by a second ace of
    spades: 52 tokens, 51 distinct cards. *)
Definition hands_dup : hands :=
  [("N", ["AS"; "KS"; "QS"; "JS"; "TS"; "9S"; "8S"; "7S"; "6S"; "5S"; "4S";
          "3S"; "AS"]);
   ("E", ["AH"; "KH"; "QH"; "JH"; "TH"; "9H"; "8H"; "7H"; "6H"; "5H"; "4H";
          "3H"; "2H"]);
   ("S", ["AD"; "KD"; "QD"; "JD"; "TD"; "9D"; "8D"; "7D"; "6D"; "5D"; "4D";
          "3D"; "2D"]);
   ("W", ["AC"; "KC"; "QC"; "JC"; "TC"; "9C"; "8C"; "7C"; "6C"; "5C"; "4C";
          "3C"; "2C"])].

(** Two small hands holding the same valid tokens, met in a different order,
    the second with repetitions and a token that is skipped. *)
Definition hands_a : hands :=
  [("N", ["AS"; "kh"; "2C"]); ("E", ["TD"; "9D"])].

Definition hands_b : hands :=
  [("E", ["9D"; "TD"; "9D"]); ("N", ["2C"; "x"; "2C"; "AS"; "kh"])].

(** A buffer of [n] bytes holding [s] and then NULs. *)
Definition buffer (n : nat) (s : string) : list byte :=
  list_byte_of_string s ++ replicate (n - String.length s) x00.

Definition pres_of (contract0 score0 : list byte) : parResults :=
  {| parScore := (score0, replicate 16 x00);
     parContractsString := (contract0, replicate 128 x00) |}.

(** A grand slam for North-South in every strain. *)
Definition table_13 : ddTableResults :=
  {| resTable := replicate 5 [13; 0; 13; 0] |}.

(** An engine on which both stages succeed. *)
Definition engine_ok : dds :=
  {| CalcDDtable := fun _ _ => Ret (1, table_13);
     Par := fun table _ _ =>
       Ret (1, table,
            pres_of (buffer 128 "NS:NS 7NT") (buffer 16 "NS 2220")) |}.

(** An engine whose trick-table stage fails with code -2. *)
Definition engine_dd_fails : dds :=
  {| CalcDDtable := fun _ table => Ret (-2, table);
     Par := Par engine_ok |}.

(** An engine whose par stage fails with code -1. *)
Definition engine_par_fails : dds :=
  {| CalcDDtable := CalcDDtable engine_ok;
     Par := fun table pres _ => Ret (-1, table, pres) |}.

(** An engine whose par stage succeeds and leaves a contract buffer that is
    not UTF-8. *)
Definition engine_bad_text : dds :=
  {| CalcDDtable := CalcDDtable engine_ok;
     Par := fun table _ _ =>
       Ret (1, table, pres_of (xff :: replicate 127 x00)
                              (buffer 16 "NS 2220")) |}.

(** An engine whose par stage leaves a contract text with two colons. *)
Definition engine_two_colons : dds :=
  {| CalcDDtable := CalcDDtable engine_ok;
     Par := fun table _ _ =>
       Ret (1, table,
            pres_of (buffer 128 "NS:3NT:X") (buffer 16 "NS 400")) |}.

(** An engine whose first call raises. *)
Definition engine_raises : dds :=
  {| CalcDDtable := fun _ _ => Raise "exception: access violation";
     Par := Par engine_ok |}.

Definition decode_error (b : list byte) : exn :=
  "'utf-8' codec can't decode bytes".

End Samples.

(** ** Solver.py: [solve_debug_console] (lines 93-174) *)

Module Console.
Import Py Solver.

(** [f"{s:<n}"] and [f"{i:n}"]: padding with spaces up to a width, text to
    the left, numbers to the right. *)
Fixpoint spaces (n : nat) : string :=
  match n with
  | O => EmptyString
  | S k => String " " (spaces k)
  end.

Definition format_left (s : string) (width : nat) : string :=
  s ++ spaces (width - String.length s).

Definition format_int (i : Z) (width : nat) : string :=
  spaces (width - String.length (str_int i)) ++ str_int i.

(** What the function has printed, one string per [print], and the engine
    calls it has made. *)
Record console := {
  stdout : list string;
  made : list call
}.

Definition C (A : Type) : Type := console -> console * outcome A.

Definition ret_c {A : Type} (a : A) : C A := fun c => (c, Ret a).

Definition bind_c {A B : Type} (m : C A) (k : A -> C B) : C B :=
  fun c =>
    match m c with
    | (c', Ret a) => k a c'
    | (c', Raise e) => (c', Raise e)
    end.

Definition lift_c {A : Type} (o : outcome A) : C A := fun c => (c, o).

Definition print (line : string) : C unit :=
  fun c => ({| stdout := stdout c ++ [line]; made := made c |}, Ret tt).

Declare Scope console_scope.
Delimit Scope console_scope with console.
Notation "'let*' x ':=' m 'in' k" := (bind_c m (fun x => k))
  (at level 10, x pattern, m at level 100, k at level 200) : console_scope.
Notation "m ;; k" := (bind_c m (fun _ => k))
  (at level 100, right associativity) : console_scope.

(** [self.vulnerability]: a BridgeSolver has the methods [__init__],
    [_format_contract], [get_vulnerability], [solve_debug_console] and
    [solve] and the fields [lib], [SuitMap], [HandMap] and [RankMap]; the
    lookup of any other name raises AttributeError. *)
Definition self_vulnerability : outcome (Z -> outcome Z) :=
  Raise "'BridgeSolver' object has no attribute 'vulnerability'".

Definition newline : string := String (ascii_of_nat 10) EmptyString.

(** The f-string of one table row (line 153): the name, then the tricks of
    North, South, East and West. *)
Definition row_text (row_name : string) (val_n val_s val_e val_w : Z)
  : string :=
  "| " ++ format_left row_name 8 ++ " |   " ++ format_int val_n 2
  ++ "  |   " ++ format_int val_s 2 ++ "  |   " ++ format_int val_e 2
  ++ "  |   " ++ format_int val_w 2 ++ "  |".

(** The lines printed for a table: the heading, the five rows in display
    order, the closing rule. *)
Definition table_text (table : ddTableResults) : list string :=
  [newline ++ "--- Double Dummy Analysis ---";
   "-------------------------------------------------";
   "|  Strain  | North | South |  East |  West  |";
   "|----------+-------+-------+-------+--------|";
   row_text "NT" (cell table 4 0) (cell table 4 2) (cell table 4 1)
     (cell table 4 3);
   row_text "Pik" (cell table 0 0) (cell table 0 2) (cell table 0 1)
     (cell table 0 3);
   row_text "Kier" (cell table 1 0) (cell table 1 2) (cell table 1 1)
     (cell table 1 3);
   row_text "Karo" (cell table 2 0) (cell table 2 2) (cell table 2 1)
     (cell table 2 3);
   row_text "Trefl" (cell table 3 0) (cell table 3 2) (cell table 3 1)
     (cell table 3 3);
   "-------------------------------------------------"].

(** The warning of line 123, printed when the count is not 52. *)
Definition count_warning (total_cards : Z) : list string :=
  if negb (total_cards =? 52) then
    ["WARNING: Input contains " ++ str_int total_cards
     ++ " cards instead of 52! Results may be invalid."]
  else [].

Section WithEngine.

Variable lib : dds.
Variable UnicodeDecodeError : list byte -> exn.

Definition call_CalcDDtable_c (deal : ddTableDeal) (table : ddTableResults)
  : C (Z * ddTableResults) :=
  fun c =>
    ({| stdout := stdout c; made := made c ++ [Call_CalcDDtable deal] |},
     CalcDDtable lib deal table).

Definition call_Par_c (table : ddTableResults) (pres : parResults)
  (vul_val : Z) : C (Z * ddTableResults * parResults) :=
  fun c =>
    ({| stdout := stdout c; made := made c ++ [Call_Par table vul_val] |},
     Par lib table pres vul_val).

Open Scope console_scope.

(** The display loop (lines 143-153). *)
Fixpoint print_rows (order : list nat) (suits_str : list string)
  (table : ddTableResults) : C unit :=
  match order with
  | [] => ret_c tt
  | s_idx :: rest =>
      let* row_name :=
        if (s_idx <? 5)%nat then lift_c (index_nat suits_str s_idx)
        else ret_c "?" in
      let val_n := cell table s_idx 0 in
      let val_e := cell table s_idx 1 in
      let val_s := cell table s_idx 2 in
      let val_w := cell table s_idx 3 in
      print (row_text row_name val_n val_s val_e val_w) ;;
      print_rows rest suits_str table
  end.

Definition solve_debug_console (hands_dict : hands) (round : Z) : C unit :=
  let '(deal, total_cards) :=
    encode_loop hands_dict (new_ddTableDeal, 0) in
  (if negb (total_cards =? 52) then
     print ("WARNING: Input contains " ++ str_int total_cards
            ++ " cards instead of 52! Results may be invalid.")
   else ret_c tt) ;;
  let* (res, table) := call_CalcDDtable_c deal new_ddTableResults in
  if negb (res =? 1) then
    print ("DDS Calculation Error, code: " ++ str_int res)
  else
    print (newline ++ "--- Double Dummy Analysis ---") ;;
    print "-------------------------------------------------" ;;
    print "|  Strain  | North | South |  East |  West  |" ;;
    print "|----------+-------+-------+-------+--------|" ;;
    let suits_str := ["Pik"; "Kier"; "Karo"; "Trefl"; "NT"] in
    let display_order := [4; 0; 1; 2; 3]%nat in
    print_rows display_order suits_str table ;;
    print "-------------------------------------------------" ;;
    let pres := new_parResults in
    let* vulnerability_method := lift_c self_vulnerability in
    let* vulnerability := lift_c (vulnerability_method round) in
    let* vuln_str := lift_c (index ["None"; "NS"; "EW"; "Both"]
                               vulnerability) in
    let* (res, table, pres) := call_Par_c table pres vulnerability in
    if res =? 1 then
      let* contract :=
        lift_c (_format_contract UnicodeDecodeError
                  (fst (parContractsString pres))) in
      let* score :=
        lift_c (decode_utf8 UnicodeDecodeError
                  (value (fst (parScore pres)))) in
      print (newline ++ "=== PAR RESULT (MIN-MAX) ===") ;;
      print ("vulnerability: " ++ vuln_str) ;;
      print ("Optimal Contract: " ++ contract) ;;
      print ("Score:            " ++ score)
    else
      print ("PAR Calculation Error, code: " ++ str_int res).

(** One call, from an empty console. *)
Definition debug_run (hands_dict : hands) (round : Z)
  : console * outcome unit :=
  solve_debug_console hands_dict round {| stdout := []; made := [] |}.

End WithEngine.

End Console.

(** ** main.py: the lobby (lines 13-14, 36-42, 62-138) *)

Module Lobby.
Import Py Solver.

(** [TABLE_STATE]: seat to occupant, [None] for a free seat.  The occupant
    and [request.remote_addr] are addresses or [None]. *)
Definition table_state : Type := list (string * option string).

Definition TABLE_STATE_initial : table_state :=
  [("N", None); ("S", None); ("E", None); ("W", None)].

(** [a == b] on two values that are a string or [None]. *)
Definition opt_eqb (a b : option string) : bool :=
  match a, b with
  | Some x, Some y => String.eqb x y
  | None, None => true
  | _, _ => false
  end.

Definition is_not_None (x : option string) : bool :=
  match x with
  | Some _ => true
  | None => false
  end.

(** [analyzer] (lines 36-42). *)
Inductive page : Type :=
| Redirect (endpoint : string)
| Render (template : string) (round_num : Z).

Definition analyzer (TABLE_STATE : table_state) (round : Z)
  (mode : option string) : page :=
  let skip_check := opt_eqb mode (Some "solo") in
  let seats_taken :=
    length (List.filter is_not_None (map snd TABLE_STATE)) in
  if negb skip_check && (seats_taken <? 4)%nat then Redirect "home"
  else Render "analyzer.html" round.

(** [get_lobby_status] (lines 62-97). *)
Record lobby_status := {
  seats : list (string * string);
  round : Z;
  ready_to_play : bool;
  dealer : string;
  vulnerability : string
}.

Definition lobby_step (user_ip : option string)
  (acc : list (string * string) * Z) (item : string * option string)
  : list (string * string) * Z :=
  let '(seats_info, seats_filled_count) := acc in
  let '(seat, occupant_ip) := item in
  if negb (is_not_None occupant_ip) then
    (dict_set seat "free" seats_info, seats_filled_count)
  else if opt_eqb occupant_ip user_ip then
    (dict_set seat "mine" seats_info, seats_filled_count + 1)
  else if opt_eqb occupant_ip (Some "DEV_BOT") then
    (dict_set seat "taken" seats_info, seats_filled_count + 1)
  else
    (dict_set seat "taken" seats_info, seats_filled_count + 1).

(** [vul_map], a dict keyed by ints. *)
Definition vul_map : list (Z * string) :=
  [(0, "None"); (1, "NS"); (2, "EW"); (3, "Both")].

Fixpoint int_dict_get {V : Type} (k : Z) (d : list (Z * V)) : option V :=
  match d with
  | [] => None
  | (k', v) :: r => if k =? k' then Some v else int_dict_get k r
  end.

Definition get_lobby_status (TABLE_STATE : table_state) (current_round : Z)
  (user_ip : option string) : outcome lobby_status :=
  let '(seats_info, seats_filled_count) :=
    fold_left (lobby_step user_ip) TABLE_STATE ([], 0) in
  let ready := seats_filled_count =? 4 in
  let dealer_map := ["N"; "E"; "S"; "W"] in
  match index dealer_map ((current_round - 1) mod 4) with
  | Raise e => Raise e
  | Ret dealer =>
      match get_vulnerability current_round with
      | Raise e => Raise e
      | Ret vul_code =>
          let vulnerability :=
            default "None" (int_dict_get vul_code vul_map) in
          Ret {| seats := seats_info;
                 round := current_round;
                 ready_to_play := ready;
                 dealer := dealer;
                 vulnerability := vulnerability |}
      end
  end.

(** [toggle_seat] (lines 99-116): the table afterwards and the status sent
    back.  The inner loop reads the items of the table and writes [None]
    into it as it goes. *)
Definition release_step (user_ip : option string) (acc : table_state)
  (item : string * option string) : table_state :=
  let '(s, occ) := item in
  if opt_eqb occ user_ip then dict_set s None acc else acc.

Definition toggle_seat (TABLE_STATE : table_state) (seat : string)
  (user_ip : option string) : table_state * string :=
  match dict_get seat TABLE_STATE with
  | None => (TABLE_STATE, "error")
  | Some current =>
      if opt_eqb current user_ip then
        (dict_set seat None TABLE_STATE, "ok")
      else if negb (is_not_None current) then
        (dict_set seat user_ip
           (fold_left (release_step user_ip) TABLE_STATE TABLE_STATE),
         "ok")
      else (TABLE_STATE, "busy")
  end.

(** [dev_fill_seats] (lines 127-132) and [dev_clear_seats] (lines 134-138):
    a loop over the keys of the table, reading and writing the table. *)
Definition fill_step (acc : table_state) (seat : string) : table_state :=
  match dict_get seat acc with
  | Some None => dict_set seat (Some "DEV_BOT") acc
  | _ => acc
  end.

Definition dev_fill_seats (TABLE_STATE : table_state) : table_state :=
  fold_left fill_step (map fst TABLE_STATE) TABLE_STATE.

Definition dev_clear_seats (TABLE_STATE : table_state) : table_state :=
  fold_left (fun acc seat => dict_set seat None acc) (map fst TABLE_STATE)
    TABLE_STATE.

(** The table is a dict: no key occurs twice. *)
Definition well_formed (TABLE_STATE : table_state) : Prop :=
  List.NoDup (map fst TABLE_STATE).

(** The occupant of a seat, [None] when the seat is free or unknown. *)
Definition occupant (TABLE_STATE : table_state) (seat : string)
  : option string :=
  match dict_get seat TABLE_STATE with
  | Some occ => occ
  | None => None
  end.

End Lobby.

(** ** main.py: editing the history (lines 182-200) *)

Module History.
Import Py Solver.

(** The answer of [edit_history]: the entry as edited, or 404. *)
Inductive answer : Type :=
| Edited (entry : Main.entry)
| Not_found.

(** The [for entry in HISTORY_LOG] loop.  [new_round] and
    [new_bid_contract] are what the JSON body holds under "round" (an
    integer) and "bid_contract" (a string), [None] when absent or null. *)
Fixpoint edit_loop (log : list Main.entry) (entry_id : string)
  (new_round : option Z) (new_bid_contract : option string)
  : list Main.entry * answer :=
  match log with
  | [] => ([], Not_found)
  | entry :: rest =>
      if String.eqb (Main.id entry) entry_id then
        let entry1 :=
          match new_round with
          | Some r =>
              {| Main.id := Main.id entry;
                 Main.time := Main.time entry;
                 Main.round := r;
                 Main.contract := Main.contract entry;
                 Main.score := Main.score entry;
                 Main.bid_contract := Main.bid_contract entry |}
          | None => entry
          end in
        let entry2 :=
          match new_bid_contract with
          | Some b =>
              {| Main.id := Main.id entry1;
                 Main.time := Main.time entry1;
                 Main.round := Main.round entry1;
                 Main.contract := Main.contract entry1;
                 Main.score := Main.score entry1;
                 Main.bid_contract := b |}
          | None => entry1
          end in
        (entry2 :: rest, Edited entry2)
      else
        let '(rest', a) := edit_loop rest entry_id new_round
                             new_bid_contract in
        (entry :: rest', a)
  end.

Definition edit_history (g : Main.globals) (entry_id : string)
  (new_round : option Z) (new_bid_contract : option string)
  : Main.globals * answer :=
  let '(log, a) := edit_loop (Main.HISTORY_LOG g) entry_id new_round
                     new_bid_contract in
  ({| Main.GLOBAL_CONFIG_round := Main.GLOBAL_CONFIG_round g;
      Main.HISTORY_LOG := log;
      Main.CURRENT_HANDS := Main.CURRENT_HANDS g |}, a).

(** [history] (lines 48-50): the log as the page lists it, newest first. *)
Definition history (g : Main.globals) : list Main.entry :=
  rev (Main.HISTORY_LOG g).

End History.

(** ** Further notions *)

Module Shape.
Import Py Solver.

(** A mask whose set bits all lie at the positions 2..14 of the ranks. *)
Definition rank_mask (m : Z) : Prop :=
  forall n, Z.testbit m n = true -> 2 <= n <= 14.

(** The same, as one equation: nothing is set outside 0x7FFC. *)
Definition within_rank_bits (m : Z) : Prop := Z.land m 32764 = m.

(** A 4x4 table whose masks all satisfy [P]. *)
Definition table_of (P : Z -> Prop) (deal : ddTableDeal) : Prop :=
  length (cards deal) = 4%nat
  /\ Forall (fun row => length row = 4%nat /\ Forall P row) (cards deal).

(** The table the engine expects: 4x4, rank bits only. *)
Definition deal_shape (deal : ddTableDeal) : Prop := table_of rank_mask deal.

(** A hands mapping with every card token rewritten by [f]. *)
Definition map_cards (f : string -> string) (hands_dict : hands) : hands :=
  map (fun item => (fst item, map f (snd item))) hands_dict.

(** The first two characters of a token. *)
Definition two_chars (card : string) : string :=
  match card with
  | String c0 (String c1 _) => String c0 (String c1 EmptyString)
  | _ => card
  end.

(** Text an engine can leave in a buffer and read back unchanged: ASCII
    characters other than NUL. *)
Definition plain_char (c : ascii) : bool :=
  let n := nat_of_ascii c in ((1 <=? n) && (n <=? 127))%nat.

Fixpoint plain_text (s : string) : bool :=
  match s with
  | EmptyString => true
  | String c r => plain_char c && plain_text r
  end.

End Shape.

Import Py Solver Notions.

(** * Properties *)

(** ** The vulnerability cycle *)

Lemma index_in_range {A : Type} (l : list A) (i : Z) :
  0 <= i < Z.of_nat (length l) -> index l i = index_nat l (Z.to_nat i).
Proof.
  intros Hi. unfold index, index_nat, list_index.
  replace (0 <=? i) with true by (symmetry; apply Z.leb_le; lia).
  replace (i <? Z.of_nat (length l)) with true
    by (symmetry; apply Z.ltb_lt; lia).
  reflexivity.
Qed.

Lemma mod16_cases (k : Z) :
  0 <= k < 16 ->
  In k [0; 1; 2; 3; 4; 5; 6; 7; 8; 9; 10; 11; 12; 13; 14; 15].
Proof.
  intros Hk. assert (Hn : k = Z.of_nat (Z.to_nat k)) by lia.
  rewrite Hn. assert (Hlt : (Z.to_nat k < 16)%nat) by lia.
  revert Hlt. generalize (Z.to_nat k). intros n Hlt.
  do 16 (destruct n as [|n]; [simpl; tauto|]). lia.
Qed.

(** [get_vulnerability] returns on every integer, with a code in 0..3. *)
Lemma get_vulnerability_total (round : Z) :
  exists vul_val,
    get_vulnerability round = Ret vul_val /\ 0 <= vul_val <= 3.
Proof.
  unfold get_vulnerability.
  assert (Hk : 0 <= (round - 1) mod 16 < 16) by (apply Z.mod_pos_bound; lia).
  apply mod16_cases in Hk. simpl in Hk.
  repeat (destruct Hk as [Hk|Hk];
          [rewrite <- Hk; eexists; split; [reflexivity | lia] |]).
  contradiction.
Qed.

Lemma vulnerability_label_total (round : Z) :
  exists vuln_str,
    vulnerability_label round = Ret vuln_str /\
    In vuln_str ["None"; "NS"; "EW"; "Both"].
Proof.
  unfold vulnerability_label, get_vulnerability.
  assert (Hk : 0 <= (round - 1) mod 16 < 16) by (apply Z.mod_pos_bound; lia).
  apply mod16_cases in Hk. simpl in Hk.
  repeat (destruct Hk as [Hk|Hk];
          [rewrite <- Hk; eexists; split; [reflexivity | simpl; tauto] |]).
  contradiction.
Qed.

(** C7.  For every round >= 1 the vulnerability of the round is the entry at
    index (round - 1) mod 16 of the fixed table None, NS, EW, Both, NS, EW,
    Both, None, EW, Both, None, NS, Both, None, NS, EW; the function has
    period 16, rounds 17 and 1 both give None (code 0) and round 4 gives Both
    (code 3). *)
Theorem get_vulnerability_cycle (round : Z) :
  1 <= round ->
  vulnerability_label round
    = index ["None"; "NS"; "EW"; "Both"; "NS"; "EW"; "Both"; "None";
             "EW"; "Both"; "None"; "NS"; "Both"; "None"; "NS"; "EW"]
        ((round - 1) mod 16)
  /\ get_vulnerability (round + 16) = get_vulnerability round
  /\ get_vulnerability 17 = Ret 0
  /\ get_vulnerability 1 = Ret 0
  /\ vulnerability_label 17 = Ret "None"
  /\ vulnerability_label 1 = Ret "None"
  /\ get_vulnerability 4 = Ret 3
  /\ vulnerability_label 4 = Ret "Both".
Proof.
  intros _. split; [|split; [|repeat split]].
  - unfold vulnerability_label, get_vulnerability.
    assert (Hk : 0 <= (round - 1) mod 16 < 16)
      by (apply Z.mod_pos_bound; lia).
    apply mod16_cases in Hk. simpl in Hk.
    repeat (destruct Hk as [Hk|Hk]; [rewrite <- Hk; reflexivity |]).
    contradiction.
  - unfold get_vulnerability. f_equal.
    replace (round + 16 - 1) with (round - 1 + 1 * 16) by lia.
    apply Z_mod_plus_full.
Qed.

Lemma get_vulnerability_cycle_witness :
  1 <= 20 /\ vulnerability_label 20 = Ret "Both"
  /\ get_vulnerability (20 + 16) = get_vulnerability 20.
Proof.
  split; [lia|].
  destruct (get_vulnerability_cycle 20 ltac:(lia)) as (H1 & H2 & _).
  split; [rewrite H1; reflexivity | exact H2].
Defined.

(** ** The encoding loop counts the accepted tokens *)

Arguments dict_get : simpl never.

Lemma rank_lookup (c : ascii) :
  is_rank c = match dict_get (String c EmptyString) RankMap with
              | Some _ => true
              | None => false
              end.
Proof. destruct c as [[] [] [] [] [] [] [] []]; reflexivity. Qed.

Lemma suit_lookup (c : ascii) :
  is_suit c = match dict_get (String c EmptyString) SuitMap with
              | Some _ => true
              | None => false
              end.
Proof. destruct c as [[] [] [] [] [] [] [] []]; reflexivity. Qed.

Lemma seat_lookup (player : string) :
  is_seat player = match dict_get player HandMap with
                   | Some _ => true
                   | None => false
                   end.
Proof.
  unfold is_seat, HandMap, dict_get. simpl.
  destruct (player =? "N")%string; [reflexivity|].
  destruct (player =? "E")%string; [reflexivity|].
  destruct (player =? "S")%string; [reflexivity|].
  destruct (player =? "W")%string; reflexivity.
Qed.

Lemma add_card_count (p_idx : nat) (deal : ddTableDeal) (n : Z)
  (card : string) :
  snd (add_card p_idx (deal, n) card)
  = n + (if valid_token card then 1 else 0).
Proof.
  destruct card as [|c0 [|c1 rest]]; simpl; try lia.
  rewrite rank_lookup, suit_lookup.
  destruct (dict_get (String (upper_char c0) "") RankMap);
    destruct (dict_get (String (upper_char c1) "") SuitMap); simpl; lia.
Qed.

Lemma add_cards_count (p_idx : nat) (cards : list string) :
  forall (deal : ddTableDeal) (n : Z),
    snd (fold_left (add_card p_idx) cards (deal, n))
    = n + Z.of_nat (length (List.filter valid_token cards)).
Proof.
  induction cards as [|card cards IH]; intros deal n; [simpl; lia|].
  cbn [fold_left List.filter].
  pose proof (add_card_count p_idx deal n card) as Hc.
  destruct (add_card p_idx (deal, n) card) as [deal' n'].
  rewrite IH. cbn [snd] in Hc. rewrite Hc.
  destruct (valid_token card); cbn [length]; lia.
Qed.

Lemma filter_accepted_pairs (player : string) (cards : list string) :
  List.filter accepted (map (pair player) cards)
  = if is_seat player then map (pair player) (List.filter valid_token cards)
    else [].
Proof.
  induction cards as [|card cards IH]; simpl.
  - destruct (is_seat player); reflexivity.
  - rewrite IH. unfold accepted. simpl.
    destruct (is_seat player); simpl; [|reflexivity].
    destruct (valid_token card); reflexivity.
Qed.

Lemma encode_loop_count (hands_dict : hands) :
  forall (deal : ddTableDeal) (n : Z),
    snd (encode_loop hands_dict (deal, n))
    = n + Z.of_nat (length (List.filter accepted (tokens hands_dict))).
Proof.
  unfold encode_loop.
  induction hands_dict as [|[player cards] rest IH]; intros deal n;
    [simpl; lia|].
  cbn [fold_left tokens flat_map fst snd]. unfold add_hand at 2.
  fold (tokens rest).
  rewrite List.filter_app, length_app, filter_accepted_pairs, seat_lookup.
  destruct (dict_get player HandMap) as [p_idx|].
  - pose proof (add_cards_count p_idx cards deal n) as Hc.
    destruct (fold_left (add_card p_idx) cards (deal, n)) as [deal' n'].
    rewrite IH. cbn [snd] in Hc. rewrite Hc, length_map. lia.
  - rewrite IH. cbn [length]. lia.
Qed.

(** [total_cards], when the loop ends, is the number of accepted tokens. *)
Lemma total_cards_accepted (hands_dict : hands) :
  snd (build_deal hands_dict) = accepted_count hands_dict.
Proof. unfold build_deal. rewrite encode_loop_count. reflexivity. Qed.

(** ** Runs of [solve] *)

Section Runs.

Variable lib : dds.
Variable UnicodeDecodeError : list byte -> exn.

#[local] Abbreviation solve := (Solver.solve lib UnicodeDecodeError).
#[local] Abbreviation solve_run :=
  (Solver.solve_run lib UnicodeDecodeError).
#[local] Abbreviation engine_calls :=
  (Solver.engine_calls lib UnicodeDecodeError).

Lemma append_empty (s : string) : s ++ "" = s.
Proof. induction s as [|c s IH]; simpl; [|rewrite IH]; reflexivity. Qed.

(** The run of a deal whose count is not 52. *)
Lemma run_invalid_count (hands_dict : hands) (round_num : Z) :
  snd (build_deal hands_dict) <> 52 ->
  solve_run hands_dict round_num
  = {| result_data :=
         {| status := "error";
            message := "Invalid card count: "
                       ++ str_int (snd (build_deal hands_dict));
            dd_table := [];
            par_result := par_result default_result_data |};
       calls := [] |}.
Proof.
  intros Hn. unfold Solver.solve_run, solve_try.
  destruct (build_deal hands_dict) as [deal total_cards]. simpl in *.
  apply Z.eqb_neq in Hn. rewrite Hn. reflexivity.
Qed.

(** C1.  Whenever the number of accepted tokens of the hands mapping is not
    52, [solve] returns an envelope with status "error" whose message is
    "Invalid card count: " followed by that number, so the message contains
    the count, and no engine entry point is called during the run. *)
Theorem solve_rejects_wrong_count (hands_dict : hands) (round_num : Z) :
  accepted_count hands_dict <> 52 ->
  status (solve hands_dict round_num) = "error"
  /\ message (solve hands_dict round_num)
     = "Invalid card count: " ++ str_int (accepted_count hands_dict)
  /\ contains (str_int (accepted_count hands_dict))
       (message (solve hands_dict round_num))
  /\ engine_calls hands_dict round_num = [].
Proof.
  intros Hn. rewrite <- total_cards_accepted in *.
  unfold Solver.solve, Solver.engine_calls.
  rewrite (run_invalid_count _ _ Hn). simpl.
  repeat split.
  exists "Invalid card count: ", "". rewrite append_empty. reflexivity.
Qed.


(** The run of a deal whose trick-table stage fails. *)
Lemma run_dd_fails (hands_dict : hands) (round_num res_dd : Z)
  (table : ddTableResults) :
  CalcDDtable_returns lib hands_dict res_dd table ->
  res_dd <> 1 ->
  solve_run hands_dict round_num
  = {| result_data :=
         {| status := "error";
            message := "DDS CalcDDtable Error: " ++ str_int res_dd;
            dd_table := [];
            par_result := par_result default_result_data |};
       calls := [Call_CalcDDtable (fst (build_deal hands_dict))] |}.
Proof.
  intros [Hn Hdd] Hne. unfold Solver.solve_run, solve_try.
  destruct (build_deal hands_dict) as [deal total_cards]. simpl in *.
  subst total_cards. simpl. unfold bind, call_CalcDDtable. rewrite Hdd.
  apply Z.eqb_neq in Hne. rewrite Hne. reflexivity.
Qed.

Lemma display_loop_decoded (table : ddTableResults) :
  display_loop display_order table [] = Ret (decoded_table table).
Proof. reflexivity. Qed.

(** The run of a deal that reaches the par stage. *)
Lemma run_par_stage (hands_dict : hands) (round_num vul_val res_par : Z)
  (vuln_str : string) (table table' : ddTableResults) (pres : parResults) :
  CalcDDtable_returns lib hands_dict 1 table ->
  get_vulnerability round_num = Ret vul_val ->
  index ["None"; "NS"; "EW"; "Both"] vul_val = Ret vuln_str ->
  Par lib table new_parResults vul_val = Ret (res_par, table', pres) ->
  solve_run hands_dict round_num
  = {| result_data :=
         {| status := "ok";
            message := if res_par =? 1 then ""
                       else "DDS Par Error: " ++ str_int res_par;
            dd_table := decoded_table table';
            par_result :=
              {| vulnerability := vuln_str;
                 optimal_contract :=
                   fst (if res_par =? 1
                        then decode_par UnicodeDecodeError pres "-" "0"
                        else ("-", "0"));
                 score :=
                   snd (if res_par =? 1
                        then decode_par UnicodeDecodeError pres "-" "0"
                        else ("-", "0")) |} |};
       calls := [Call_CalcDDtable (fst (build_deal hands_dict));
                 Call_Par table vul_val] |}.
Proof.
  intros [Hn Hdd] Hv Hs Hpar. unfold Solver.solve_run, solve_try.
  destruct (build_deal hands_dict) as [deal total_cards]. simpl in *.
  subst total_cards. simpl. unfold bind, call_CalcDDtable, call_Par, lift.
  rewrite Hdd. simpl. rewrite Hv, Hs. simpl. rewrite Hpar.
  destruct (res_par =? 1).
  - unfold ret. destruct (decode_par UnicodeDecodeError pres "-" "0").
    reflexivity.
  - reflexivity.
Qed.

(** The code of a round always has a label, and it is not the sentinel. *)
Lemma label_of_round (round_num vul_val : Z) :
  get_vulnerability round_num = Ret vul_val ->
  exists vuln_str,
    index ["None"; "NS"; "EW"; "Both"] vul_val = Ret vuln_str
    /\ vulnerability_label round_num = Ret vuln_str
    /\ vuln_str <> "Unknown".
Proof.
  intros Hv. destruct (vulnerability_label_total round_num) as (s & Hs & Hin).
  exists s. unfold vulnerability_label in *. rewrite Hv in Hs.
  split; [exact Hs|]. split; [rewrite Hv; exact Hs|].
  simpl in Hin. intros Heq. rewrite Heq in Hin.
  repeat (destruct Hin as [Hin|Hin]; [discriminate|]). contradiction.
Qed.

(** C2.  In a run where [CalcDDtable] returns 1 the envelope has status "ok"
    whatever code the following [Par] call returns; a par code other than 1
    leaves the trick table and the vulnerability label in place and only
    sets optimal_contract to "-" and score to "0".  A [CalcDDtable] code
    other than 1 gives status "error". *)
Theorem trick_failure_fatal_par_failure_not (hands_dict : hands)
  (round_num res_dd : Z) (table : ddTableResults) :
  CalcDDtable_returns lib hands_dict res_dd table ->
  (res_dd <> 1 -> status (solve hands_dict round_num) = "error")
  /\ (res_dd = 1 ->
      forall (res_par : Z) (table' : ddTableResults) (pres : parResults),
        Par_returns lib table round_num res_par table' pres ->
        status (solve hands_dict round_num) = "ok"
        /\ dd_table (solve hands_dict round_num) = decoded_table table'
        /\ vulnerability_label round_num
           = Ret (vulnerability (par_result (solve hands_dict round_num)))
        /\ (res_par <> 1 ->
            optimal_contract (par_result (solve hands_dict round_num)) = "-"
            /\ score (par_result (solve hands_dict round_num)) = "0")).
Proof.
  intros Hdd. split.
  - intros Hne. unfold Solver.solve.
    rewrite (run_dd_fails _ round_num _ _ Hdd Hne). reflexivity.
  - intros -> res_par table' pres (vul_val & Hv & Hpar).
    destruct (label_of_round _ _ Hv) as (vuln_str & Hs & Hl & _).
    unfold Solver.solve.
    rewrite (run_par_stage _ _ _ _ _ _ _ _ Hdd Hv Hs Hpar). simpl.
    split; [reflexivity|]. split; [reflexivity|]. split; [exact Hl|].
    intros Hne. apply Z.eqb_neq in Hne. rewrite Hne. split; reflexivity.
Qed.

(** C10.  In a run where [CalcDDtable] returns 1 and [Par] returns a code
    other than 1, the envelope has status "ok" together with the non-empty
    message "DDS Par Error: " followed by the code; its vulnerability is the
    label computed for the round, not the sentinel "Unknown", while
    optimal_contract is "-" and score is "0". *)
Theorem par_failure_envelope (hands_dict : hands) (round_num res_par : Z)
  (table table' : ddTableResults) (pres : parResults) :
  CalcDDtable_returns lib hands_dict 1 table ->
  Par_returns lib table round_num res_par table' pres ->
  res_par <> 1 ->
  status (solve hands_dict round_num) = "ok"
  /\ message (solve hands_dict round_num)
     = "DDS Par Error: " ++ str_int res_par
  /\ message (solve hands_dict round_num) <> ""
  /\ vulnerability_label round_num
     = Ret (vulnerability (par_result (solve hands_dict round_num)))
  /\ vulnerability (par_result (solve hands_dict round_num)) <> "Unknown"
  /\ optimal_contract (par_result (solve hands_dict round_num)) = "-"
  /\ score (par_result (solve hands_dict round_num)) = "0".
Proof.
  intros Hdd (vul_val & Hv & Hpar) Hne.
  destruct (label_of_round _ _ Hv) as (vuln_str & Hs & Hl & Hu).
  unfold Solver.solve.
  rewrite (run_par_stage _ _ _ _ _ _ _ _ Hdd Hv Hs Hpar). simpl.
  apply Z.eqb_neq in Hne. rewrite Hne. simpl.
  split; [reflexivity|]. split; [reflexivity|]. split; [discriminate|].
  split; [exact Hl|]. split; [exact Hu|]. split; reflexivity.
Qed.

(** C6.  In a run where [CalcDDtable] returns a code other than 1, the
    envelope has status "error", an empty dd_table and the default par_result
    ("Unknown", "-", "0"); the handler of /api/solve then sends that envelope
    back and leaves the history log as it was. *)
Theorem trick_failure_keeps_defaults (hands_dict : hands)
  (round_num res_dd : Z) (table : ddTableResults) :
  CalcDDtable_returns lib hands_dict res_dd table ->
  res_dd <> 1 ->
  solve hands_dict round_num
  = {| status := "error";
       message := "DDS CalcDDtable Error: " ++ str_int res_dd;
       dd_table := [];
       par_result := {| vulnerability := "Unknown";
                        optimal_contract := "-";
                        score := "0" |} |}
  /\ forall (g : Main.globals) (data : list (string * string))
            (uuid4 now : string),
       Main.CURRENT_HANDS g = hands_dict ->
       Main.GLOBAL_CONFIG_round g = round_num ->
       Main.HISTORY_LOG
         (fst (Main.solve_api lib UnicodeDecodeError g data uuid4 now))
       = Main.HISTORY_LOG g
       /\ snd (Main.solve_api lib UnicodeDecodeError g data uuid4 now)
          = solve hands_dict round_num.
Proof.
  intros Hdd Hne.
  assert (Hs : solve hands_dict round_num
               = {| status := "error";
                    message := "DDS CalcDDtable Error: " ++ str_int res_dd;
                    dd_table := [];
                    par_result := par_result default_result_data |}).
  { unfold Solver.solve.
    rewrite (run_dd_fails _ round_num _ _ Hdd Hne). reflexivity. }
  split; [exact Hs|].
  intros g data uuid4 now Hh Hr. unfold Main.solve_api.
  rewrite Hh, Hr, Hs. simpl. split; reflexivity.
Qed.

(** ** Decoding the par buffers *)

Lemma split_nonempty (c : ascii) (s : string) :
  exists p ps, split c s = p :: ps.
Proof.
  destruct s as [|a r]; simpl; [eauto|].
  destruct (Ascii.eqb a c); [eauto|].
  destruct (split c r); eauto.
Qed.

Lemma split_second (c : ascii) (s : string) :
  char_in c s = true -> exists p q ps, split c s = p :: q :: ps.
Proof.
  induction s as [|a r IH]; simpl; [discriminate|].
  destruct (Ascii.eqb a c); simpl.
  - intros _. destruct (split_nonempty c r) as (q & ps & ->). eauto.
  - intros H. destruct (IH H) as (p & q & ps & ->). eauto.
Qed.

(** [s.split(':')[1]] never raises once [':' in s] holds. *)
Lemma split_index_1 (c : ascii) (s : string) :
  char_in c s = true -> exists q, index (split c s) 1 = Ret q.
Proof.
  intros H. destruct (split_second c s H) as (p & q & ps & ->).
  exists q. rewrite index_in_range; [reflexivity|].
  cbn [length]. lia.
Qed.

(** [_format_contract] raises exactly when the buffer is not UTF-8. *)
Lemma format_contract_returns (raw : list byte) :
  utf8_valid (value raw) = true ->
  exists contract, _format_contract UnicodeDecodeError raw = Ret contract.
Proof.
  intros Hv. unfold _format_contract, decode_utf8. rewrite Hv.
  destruct (char_in ":" (string_of_list_byte (value raw))) eqn:Hc;
    [apply split_index_1; exact Hc | eauto].
Qed.

Lemma format_contract_raises (raw : list byte) :
  utf8_valid (value raw) = false ->
  _format_contract UnicodeDecodeError raw
  = Raise (UnicodeDecodeError (value raw)).
Proof.
  intros Hv. unfold _format_contract, decode_utf8. rewrite Hv. reflexivity.
Qed.

(** The inner handler: a buffer that fails to decode leaves the decode-error
    text in [contract] and the initial [score]. *)
Lemma decode_par_failure (pres : parResults) (contract score : string) :
  utf8_valid (value (fst (parContractsString pres))) = false
  \/ utf8_valid (value (fst (parScore pres))) = false ->
  exists b,
    (b = value (fst (parContractsString pres))
     \/ b = value (fst (parScore pres)))
    /\ utf8_valid b = false
    /\ decode_par UnicodeDecodeError pres contract score
       = ("Decode Error: " ++ UnicodeDecodeError b, score).
Proof.
  intros H. unfold decode_par.
  destruct (utf8_valid (value (fst (parContractsString pres)))) eqn:Hc.
  - destruct H as [H|H]; [discriminate|].
    destruct (format_contract_returns _ Hc) as (c & ->).
    unfold decode_utf8. rewrite H. eauto 6.
  - rewrite (format_contract_raises _ Hc). eauto 6.
Qed.

(** C8.  In a run where both engine calls return 1 and the contract buffer
    or the score buffer of slot 0 is not valid UTF-8, the decoding error is
    caught: [solve] returns an envelope with status "ok" and the trick table,
    whose optimal_contract is "Decode Error: " followed by the text of the
    error, and whose score is the default "0". *)
Theorem decode_failure_is_reported (hands_dict : hands) (round_num : Z)
  (table table' : ddTableResults) (pres : parResults) :
  CalcDDtable_returns lib hands_dict 1 table ->
  Par_returns lib table round_num 1 table' pres ->
  utf8_valid (value (fst (parContractsString pres))) = false
  \/ utf8_valid (value (fst (parScore pres))) = false ->
  status (solve hands_dict round_num) = "ok"
  /\ dd_table (solve hands_dict round_num) = decoded_table table'
  /\ (exists b,
        (b = value (fst (parContractsString pres))
         \/ b = value (fst (parScore pres)))
        /\ utf8_valid b = false
        /\ optimal_contract (par_result (solve hands_dict round_num))
           = "Decode Error: " ++ UnicodeDecodeError b)
  /\ score (par_result (solve hands_dict round_num)) = "0".
Proof.
  intros Hdd (vul_val & Hv & Hpar) Hbad.
  destruct (label_of_round _ _ Hv) as (vuln_str & Hs & _).
  destruct (decode_par_failure pres "-" "0" Hbad) as (b & Hb & Hu & Hd).
  unfold Solver.solve.
  rewrite (run_par_stage _ _ _ _ _ _ _ _ Hdd Hv Hs Hpar). simpl.
  rewrite Hd. simpl.
  split; [reflexivity|]. split; [reflexivity|]. split; [|reflexivity].
  exists b. auto.
Qed.

(** ** No exception leaves [solve] *)

(** Up to the point where the body may still raise, [result_data] differs
    from the defaults in its message at most. *)
Definition only_message (r : run) : Prop :=
  status (result_data r) = "error"
  /\ dd_table (result_data r) = []
  /\ par_result (result_data r) = par_result default_result_data.

Lemma raise_keeps_defaults (hands_dict : hands) (round_num : Z) (r : run)
  (e : exn) :
  solve_try lib UnicodeDecodeError hands_dict round_num start = (r, Raise e) ->
  only_message r.
Proof.
  unfold solve_try, only_message.
  destruct (build_deal hands_dict) as [deal total_cards].
  destruct (negb (total_cards =? 52)); [discriminate|].
  unfold bind at 1. unfold call_CalcDDtable at 1.
  destruct (CalcDDtable lib deal new_ddTableResults) as [[res_dd table]|e1].
  2:{ intros [= <- _]. repeat split. }
  destruct (negb (res_dd =? 1)); [discriminate|].
  unfold bind at 1. unfold lift at 1.
  destruct (get_vulnerability round_num) as [vul_val|e2].
  2:{ intros [= <- _]. repeat split. }
  unfold bind at 1. unfold lift at 1.
  destruct (index ["None"; "NS"; "EW"; "Both"] vul_val) as [vuln_str|e3].
  2:{ intros [= <- _]. repeat split. }
  unfold bind at 1. unfold call_Par at 1.
  destruct (Par lib table new_parResults vul_val)
    as [[[res_par table'] pres]|e4].
  2:{ intros [= <- _]. repeat split. }
  rewrite display_loop_decoded.
  destruct (res_par =? 1).
  - unfold bind, ret, lift.
    destruct (decode_par UnicodeDecodeError pres "-" "0"). discriminate.
  - discriminate.
Qed.

Lemma return_status (hands_dict : hands) (round_num : Z) (r : run) :
  solve_try lib UnicodeDecodeError hands_dict round_num start = (r, Ret tt) ->
  status (result_data r) = "ok" \/ status (result_data r) = "error".
Proof.
  unfold solve_try.
  destruct (build_deal hands_dict) as [deal total_cards].
  destruct (negb (total_cards =? 52)); [intros [= <-]; right; reflexivity|].
  unfold bind at 1. unfold call_CalcDDtable at 1.
  destruct (CalcDDtable lib deal new_ddTableResults) as [[res_dd table]|e1];
    [|discriminate].
  destruct (negb (res_dd =? 1)); [intros [= <-]; right; reflexivity|].
  unfold bind at 1. unfold lift at 1.
  destruct (get_vulnerability round_num) as [vul_val|e2]; [|discriminate].
  unfold bind at 1. unfold lift at 1.
  destruct (index ["None"; "NS"; "EW"; "Both"] vul_val) as [vuln_str|e3];
    [|discriminate].
  unfold bind at 1. unfold call_Par at 1.
  destruct (Par lib table new_parResults vul_val)
    as [[[res_par table'] pres]|e4]; [|discriminate].
  rewrite display_loop_decoded.
  destruct (res_par =? 1).
  - unfold bind, ret, lift.
    destruct (decode_par UnicodeDecodeError pres "-" "0").
    intros [= <-]. left. reflexivity.
  - intros [= <-]. left. reflexivity.
Qed.

(** C5.  For every hands mapping and round number, and whatever the engine
    does, [solve] returns an envelope (status, message, dd_table,
    par_result) whose status is "ok" or "error".  Either its body ran to an
    end and the envelope is [result_data] as the body left it, or the body
    raised an exception, which is caught: the envelope then has status
    "error", the message "Python Exception: " followed by the text of the
    exception, an empty dd_table and the default par_result. *)
Theorem solve_never_raises (hands_dict : hands) (round_num : Z) :
  (status (solve hands_dict round_num) = "ok"
   \/ status (solve hands_dict round_num) = "error")
  /\ ((exists r,
         solve_try lib UnicodeDecodeError hands_dict round_num start
           = (r, Ret tt)
         /\ solve hands_dict round_num = result_data r)
      \/ (exists r e,
            solve_try lib UnicodeDecodeError hands_dict round_num start
              = (r, Raise e)
            /\ solve hands_dict round_num
               = {| status := "error";
                    message := "Python Exception: " ++ e;
                    dd_table := [];
                    par_result := {| vulnerability := "Unknown";
                                     optimal_contract := "-";
                                     score := "0" |} |})).
Proof.
  unfold Solver.solve, Solver.solve_run.
  destruct (solve_try lib UnicodeDecodeError hands_dict round_num start)
    as [r [[]|e]] eqn:Hrun.
  - split; [exact (return_status _ _ _ Hrun)|]. left. eauto.
  - destruct (raise_keeps_defaults _ _ _ _ Hrun) as (Hs & Hd & Hp).
    simpl. rewrite Hs, Hd, Hp. split; [right; reflexivity|].
    right. exists r, e. split; reflexivity.
Qed.

(** ** What [_format_contract] returns *)

Lemma split_first (c : ascii) (s : string) :
  exists ps, split c s = before_first c s :: ps.
Proof.
  induction s as [|a r IH]; simpl; [eauto|].
  destruct (Ascii.eqb a c); [eauto|].
  destruct IH as (ps & ->). eauto.
Qed.

Lemma split_pieces (c : ascii) (s : string) :
  char_in c s = true ->
  exists ps,
    split c s = before_first c s :: before_first c (after_first c s) :: ps.
Proof.
  induction s as [|a r IH]; simpl; [discriminate|].
  destruct (Ascii.eqb a c); simpl.
  - intros _. destruct (split_first c r) as (ps & ->). eauto.
  - intros H. destruct (IH H) as (ps & ->). eauto.
Qed.

(** On text with a colon the code returns the piece between the first colon
    and the next one, not all the text after the first colon. *)
Lemma format_contract_colon (raw : list byte) :
  utf8_valid (value raw) = true ->
  char_in ":" (string_of_list_byte (value raw)) = true ->
  _format_contract UnicodeDecodeError raw
  = Ret (before_first ":"
           (after_first ":" (string_of_list_byte (value raw)))).
Proof.
  intros Hv Hc. unfold _format_contract, decode_utf8. rewrite Hv, Hc.
  destruct (split_pieces _ _ Hc) as (ps & ->).
  rewrite index_in_range; [reflexivity | cbn [length]; lia].
Qed.

Lemma format_contract_no_colon (raw : list byte) :
  utf8_valid (value raw) = true ->
  char_in ":" (string_of_list_byte (value raw)) = false ->
  _format_contract UnicodeDecodeError raw
  = Ret (string_of_list_byte (value raw)).
Proof.
  intros Hv Hc. unfold _format_contract, decode_utf8. rewrite Hv, Hc.
  reflexivity.
Qed.

Lemma before_first_no_colon (c : ascii) (s : string) :
  char_in c s = false -> before_first c s = s.
Proof.
  induction s as [|a r IH]; simpl; [reflexivity|].
  destruct (Ascii.eqb a c); simpl; [discriminate|].
  intros H. rewrite (IH H). reflexivity.
Qed.

(** With exactly one colon the prefix is removed as documented. *)
Lemma format_contract_one_colon (raw : list byte) :
  utf8_valid (value raw) = true ->
  char_in ":" (string_of_list_byte (value raw)) = true ->
  char_in ":" (after_first ":" (string_of_list_byte (value raw))) = false ->
  _format_contract UnicodeDecodeError raw
  = Ret (strip_prefix (string_of_list_byte (value raw))).
Proof.
  intros Hv Hc H1. rewrite (format_contract_colon _ Hv Hc).
  unfold strip_prefix. rewrite Hc, (before_first_no_colon _ _ H1).
  reflexivity.
Qed.

(** On par success with two decodable buffers the score is the decoded text
    of its buffer, untouched. *)
Lemma decode_par_success (pres : parResults) (contract score : string) :
  utf8_valid (value (fst (parContractsString pres))) = true ->
  utf8_valid (value (fst (parScore pres))) = true ->
  exists contract',
    _format_contract UnicodeDecodeError (fst (parContractsString pres))
      = Ret contract'
    /\ decode_par UnicodeDecodeError pres contract score
       = (contract', string_of_list_byte (value (fst (parScore pres)))).
Proof.
  intros Hc Hs. destruct (format_contract_returns _ Hc) as (c & Hf).
  exists c. split; [exact Hf|].
  unfold decode_par, decode_utf8. rewrite Hf, Hs. reflexivity.
Qed.

(** ** A deal of 52 accepted tokens goes to the engine *)

Lemma count_52_calls_engine (hands_dict : hands) (round_num : Z) :
  snd (build_deal hands_dict) = 52 ->
  exists rest,
    engine_calls hands_dict round_num
    = Call_CalcDDtable (fst (build_deal hands_dict)) :: rest.
Proof.
  intros Hn. unfold Solver.engine_calls, Solver.solve_run, solve_try.
  destruct (build_deal hands_dict) as [deal total_cards]. simpl in Hn.
  subst total_cards. cbn [negb Z.eqb Pos.eqb fst].
  unfold bind at 1. unfold call_CalcDDtable at 1.
  destruct (CalcDDtable lib deal new_ddTableResults) as [[res_dd table]|e1];
    [|simpl; eauto].
  destruct (negb (res_dd =? 1)); [simpl; eauto|].
  unfold bind at 1. unfold lift at 1.
  destruct (get_vulnerability round_num) as [vul_val|e2]; [|simpl; eauto].
  unfold bind at 1. unfold lift at 1.
  destruct (index ["None"; "NS"; "EW"; "Both"] vul_val) as [vuln_str|e3];
    [|simpl; eauto].
  unfold bind at 1. unfold call_Par at 1.
  destruct (Par lib table new_parResults vul_val)
    as [[[res_par table'] pres]|e4]; [|simpl; eauto].
  rewrite display_loop_decoded.
  destruct (res_par =? 1).
  - unfold bind, ret, lift.
    destruct (decode_par UnicodeDecodeError pres "-" "0"). simpl. eauto.
  - simpl. eauto.
Qed.

End Runs.

(** C4.  The buffer holding "NS:3NT:X" decodes, has a colon, and the text
    after its first colon is "3NT:X"; [_format_contract] returns "3NT", and
    so does [solve] in optimal_contract: the text from the second colon on is
    lost. *)
Theorem format_contract_second_colon (UnicodeDecodeError : list byte -> exn) :
  strip_prefix "NS:3NT:X" = "3NT:X"
  /\ _format_contract UnicodeDecodeError (Samples.buffer 128 "NS:3NT:X")
     = Ret "3NT"
  /\ optimal_contract
       (par_result (solve Samples.engine_two_colons UnicodeDecodeError
                      Main.initial_hands 1))
     = "3NT"
  /\ score
       (par_result (solve Samples.engine_two_colons UnicodeDecodeError
                      Main.initial_hands 1))
     = "NS 400".
Proof. repeat split. Qed.

(** C3.  The deal with the ace of spades twice in North's hand has 52
    accepted tokens and 51 set bits; [solve] does not reject it: whatever the
    engine and the round, the first thing the run does is call [CalcDDtable]
    on that table. *)
Theorem duplicate_token_reaches_engine (lib : dds)
  (UnicodeDecodeError : list byte -> exn) (round_num : Z) :
  accepted_count Samples.hands_dup = 52
  /\ deal_popcount (fst (build_deal Samples.hands_dup)) = 51
  /\ exists rest,
       engine_calls lib UnicodeDecodeError Samples.hands_dup round_num
       = Call_CalcDDtable (fst (build_deal Samples.hands_dup)) :: rest.
Proof.
  split; [reflexivity|]. split; [reflexivity|].
  apply count_52_calls_engine. reflexivity.
Qed.

(** ** The mask table depends on the set of tokens only *)

Section Folds.

Context {S X : Type} (f : S -> X -> S).
Hypothesis f_comm : forall d x y, f (f d x) y = f (f d y) x.
Hypothesis f_idem : forall d x, f (f d x) x = f d x.

Lemma fold_push (l : list X) :
  forall d x, fold_left f l (f d x) = f (fold_left f l d) x.
Proof.
  induction l as [|y l IH]; intros d x; simpl; [reflexivity|].
  rewrite f_comm. apply IH.
Qed.

Lemma fold_absorb (l : list X) (x : X) :
  In x l -> forall d, fold_left f l (f d x) = fold_left f l d.
Proof.
  induction l as [|y l IH]; simpl; [contradiction|].
  intros [->|Hin] d.
  - rewrite f_idem. reflexivity.
  - rewrite f_comm. apply IH. exact Hin.
Qed.

Lemma fold_incl (l1 l2 : list X) :
  incl l1 l2 ->
  forall d, fold_left f l2 (fold_left f l1 d) = fold_left f l2 d.
Proof.
  induction l1 as [|x l1 IH]; intros Hincl d; simpl; [reflexivity|].
  rewrite IH by (intros y Hy; apply Hincl; right; exact Hy).
  apply fold_absorb. apply Hincl. left. reflexivity.
Qed.

Lemma fold_swap (l1 l2 : list X) :
  forall d,
    fold_left f l2 (fold_left f l1 d) = fold_left f l1 (fold_left f l2 d).
Proof.
  induction l1 as [|x l1 IH]; intros d; simpl; [reflexivity|].
  rewrite IH, fold_push. reflexivity.
Qed.

Lemma fold_same_set (l1 l2 : list X) (d : S) :
  incl l1 l2 -> incl l2 l1 -> fold_left f l1 d = fold_left f l2 d.
Proof.
  intros H12 H21.
  rewrite <- (fold_incl l2 l1 H21 d), fold_swap.
  apply fold_incl. exact H12.
Qed.

Lemma fold_filter (keep : X -> bool) (l : list X) :
  (forall x d, keep x = false -> f d x = d) ->
  forall d, fold_left f l d = fold_left f (List.filter keep l) d.
Proof.
  intros Hskip. induction l as [|x l IH]; intros d; simpl; [reflexivity|].
  destruct (keep x) eqn:Hk; simpl; [apply IH|].
  rewrite (Hskip x d Hk). apply IH.
Qed.

End Folds.

Lemma or_mask_comm (m a b : Z) :
  Z.lor (Z.lor m a mod 2 ^ 32) b mod 2 ^ 32
  = Z.lor (Z.lor m b mod 2 ^ 32) a mod 2 ^ 32.
Proof.
  apply Z.bits_inj'. intros n Hn.
  rewrite !Z.testbit_mod_pow2, !Z.lor_spec, !Z.testbit_mod_pow2, !Z.lor_spec
    by lia.
  destruct (n <? 32), (Z.testbit m n), (Z.testbit a n), (Z.testbit b n);
    reflexivity.
Qed.

Lemma or_mask_idem (m a : Z) :
  Z.lor (Z.lor m a mod 2 ^ 32) a mod 2 ^ 32 = Z.lor m a mod 2 ^ 32.
Proof.
  apply Z.bits_inj'. intros n Hn.
  rewrite !Z.testbit_mod_pow2, !Z.lor_spec, !Z.testbit_mod_pow2, !Z.lor_spec
    by lia.
  destruct (n <? 32), (Z.testbit m n), (Z.testbit a n); reflexivity.
Qed.

Lemma or_card_comm (p s p' s' : nat) (b b' : Z) (deal : ddTableDeal) :
  or_card p s b (or_card p' s' b' deal)
  = or_card p' s' b' (or_card p s b deal).
Proof.
  unfold or_card. cbn [cards]. f_equal.
  destruct (decide (p = p')) as [->|Hp].
  - rewrite !list_alter_alter_eq. apply list_alter_ext; [|reflexivity].
    intros row _. cbn [compose].
    destruct (decide (s = s')) as [->|Hs].
    + rewrite !list_alter_alter_eq. apply list_alter_ext; [|reflexivity].
      intros m _. cbn [compose]. apply or_mask_comm.
    + apply list_alter_alter_ne. exact Hs.
  - apply list_alter_alter_ne. exact Hp.
Qed.

Lemma or_card_idem (p s : nat) (b : Z) (deal : ddTableDeal) :
  or_card p s b (or_card p s b deal) = or_card p s b deal.
Proof.
  unfold or_card. cbn [cards]. f_equal.
  rewrite list_alter_alter_eq. apply list_alter_ext; [|reflexivity].
  intros row _. cbn [compose].
  rewrite list_alter_alter_eq. apply list_alter_ext; [|reflexivity].
  intros m _. cbn [compose]. apply or_mask_idem.
Qed.

(** One pass of the loop body either skips the card or ORs one bit into one
    cell and counts it. *)
Lemma add_card_cases (p_idx : nat) (card : string) :
  (forall deal n, add_card p_idx (deal, n) card = (deal, n))
  \/ (exists suit_idx bit,
        forall deal n,
          add_card p_idx (deal, n) card
          = (or_card p_idx suit_idx bit deal, n + 1)).
Proof.
  unfold add_card.
  destruct (String.length card <? 2)%nat; [left; reflexivity|].
  destruct (String.get 0 card) as [c0|]; [|left; reflexivity].
  destruct (String.get 1 card) as [c1|]; [|left; reflexivity].
  cbv zeta.
  destruct (dict_get (upper (String c0 "")) RankMap) as [bit|];
    [|left; reflexivity].
  destruct (dict_get (upper (String c1 "")) SuitMap) as [suit_idx|];
    [|left; reflexivity].
  right. exists suit_idx, bit. reflexivity.
Qed.

Lemma place_seat (player card : string) (p_idx : nat) (deal : ddTableDeal)
  (n : Z) :
  dict_get player HandMap = Some p_idx ->
  place deal (player, card) = fst (add_card p_idx (deal, n) card).
Proof.
  intros Hp. unfold place, add_hand. cbn [fst snd]. rewrite Hp.
  cbn [fold_left].
  destruct (add_card_cases p_idx card) as [H|(s & b & H)]; rewrite !H;
    reflexivity.
Qed.

Lemma place_no_seat (player card : string) (deal : ddTableDeal) :
  dict_get player HandMap = None -> place deal (player, card) = deal.
Proof.
  intros Hp. unfold place, add_hand. cbn [fst snd]. rewrite Hp. reflexivity.
Qed.

Lemma place_cases (t : string * string) :
  (forall deal, place deal t = deal)
  \/ (exists p_idx suit_idx bit,
        forall deal, place deal t = or_card p_idx suit_idx bit deal).
Proof.
  destruct t as [player card].
  destruct (dict_get player HandMap) as [p_idx|] eqn:Hp.
  - destruct (add_card_cases p_idx card) as [H|(s & b & H)].
    + left. intros deal. rewrite (place_seat _ _ _ _ 0 Hp), H. reflexivity.
    + right. exists p_idx, s, b. intros deal.
      rewrite (place_seat _ _ _ _ 0 Hp), H. reflexivity.
  - left. intros deal. apply place_no_seat. exact Hp.
Qed.

Lemma place_comm (deal : ddTableDeal) (t u : string * string) :
  place (place deal t) u = place (place deal u) t.
Proof.
  destruct (place_cases t) as [Ht|(p & s & b & Ht)];
    destruct (place_cases u) as [Hu|(p' & s' & b' & Hu)];
    rewrite ?Ht, ?Hu, ?Ht; try reflexivity.
  apply or_card_comm.
Qed.

Lemma place_idem (deal : ddTableDeal) (t : string * string) :
  place (place deal t) t = place deal t.
Proof.
  destruct (place_cases t) as [Ht|(p & s & b & Ht)]; rewrite !Ht;
    [reflexivity | apply or_card_idem].
Qed.

(** A token that is not accepted leaves the table as it is. *)
Lemma place_skipped (t : string * string) (deal : ddTableDeal) :
  accepted t = false -> place deal t = deal.
Proof.
  destruct t as [player card]. unfold accepted. cbn [fst snd].
  rewrite seat_lookup.
  destruct (dict_get player HandMap) as [p_idx|] eqn:Hp;
    [|intros _; apply place_no_seat; exact Hp].
  cbn [andb]. intros Hv. rewrite (place_seat _ _ _ _ 0 Hp).
  pose proof (add_card_count p_idx deal 0 card) as Hc. rewrite Hv in Hc.
  destruct (add_card_cases p_idx card) as [H|(s & b & H)]; rewrite H in *;
    [reflexivity | cbn [snd] in Hc; lia].
Qed.

(** The table the loop builds is the fold of [place] over the tokens. *)
Lemma add_cards_place (player : string) (p_idx : nat) (cards : list string) :
  dict_get player HandMap = Some p_idx ->
  forall deal n,
    fst (fold_left (add_card p_idx) cards (deal, n))
    = fold_left place (map (pair player) cards) deal.
Proof.
  intros Hp. induction cards as [|card cards IH]; intros deal n;
    [reflexivity|].
  cbn [fold_left map]. rewrite (place_seat _ _ _ _ n Hp).
  destruct (add_card p_idx (deal, n) card) as [deal' n']. apply IH.
Qed.

Lemma no_seat_place (player : string) (cards : list string)
  (deal : ddTableDeal) :
  dict_get player HandMap = None ->
  fold_left place (map (pair player) cards) deal = deal.
Proof.
  intros Hp. induction cards as [|card cards IH]; [reflexivity|].
  cbn [fold_left map]. rewrite (place_no_seat _ _ _ Hp). exact IH.
Qed.

Lemma encode_loop_place (hands_dict : hands) :
  forall deal n,
    fst (encode_loop hands_dict (deal, n))
    = fold_left place (tokens hands_dict) deal.
Proof.
  unfold encode_loop.
  induction hands_dict as [|[player cards] rest IH]; intros deal n;
    [reflexivity|].
  cbn [fold_left tokens flat_map fst snd]. fold (tokens rest).
  rewrite fold_left_app. unfold add_hand at 2.
  destruct (dict_get player HandMap) as [p_idx|] eqn:Hp.
  - rewrite <- (add_cards_place _ _ _ Hp deal n).
    destruct (fold_left (add_card p_idx) cards (deal, n)) as [deal' n'].
    apply IH.
  - rewrite (no_seat_place _ _ _ Hp). apply IH.
Qed.

(** C9.  Two hands mappings that hold the same set of valid (player, card)
    tokens, in whatever order and with whatever repetitions, give the same
    4x4 mask table; and running the encoding loop again, over the table
    already built, leaves that table as it is. *)
Theorem encoding_depends_on_token_set (hands_1 hands_2 : hands) :
  (forall t, accepted t = true ->
             (In t (tokens hands_1) <-> In t (tokens hands_2))) ->
  fst (build_deal hands_1) = fst (build_deal hands_2)
  /\ (forall n,
        fst (encode_loop hands_2 (fst (build_deal hands_1), n))
        = fst (build_deal hands_1)).
Proof.
  intros Hset.
  assert (H12 : incl (List.filter accepted (tokens hands_1))
                     (List.filter accepted (tokens hands_2))).
  { intros t Ht. apply filter_In in Ht as [Hin Ha].
    apply filter_In. split; [apply (Hset t Ha); exact Hin | exact Ha]. }
  assert (H21 : incl (List.filter accepted (tokens hands_2))
                     (List.filter accepted (tokens hands_1))).
  { intros t Ht. apply filter_In in Ht as [Hin Ha].
    apply filter_In. split; [apply (Hset t Ha); exact Hin | exact Ha]. }
  assert (Hskip : forall t deal, accepted t = false -> place deal t = deal)
    by (intros t deal; apply place_skipped).
  unfold build_deal. split; [|intros n]; rewrite !encode_loop_place.
  - rewrite (fold_filter place accepted _ Hskip),
      (fold_filter place accepted (tokens hands_2) Hskip).
    apply (fold_same_set place place_comm place_idem); assumption.
  - rewrite (fold_filter place accepted (tokens hands_2) Hskip),
      (fold_filter place accepted (tokens hands_1) Hskip new_ddTableDeal).
    rewrite (fold_incl place place_comm place_idem _ _ H12).
    apply (fold_same_set place place_comm place_idem); assumption.
Qed.

(** ** The properties at sample runs *)

Lemma solve_rejects_wrong_count_witness :
  accepted_count Samples.hands_51 <> 52
  /\ message (solve Samples.engine_ok Samples.decode_error Samples.hands_51 1)
     = "Invalid card count: 51"
  /\ engine_calls Samples.engine_ok Samples.decode_error Samples.hands_51 1
     = [].
Proof.
  assert (H : accepted_count Samples.hands_51 <> 52)
    by (vm_compute; discriminate).
  split; [exact H|].
  destruct (solve_rejects_wrong_count Samples.engine_ok Samples.decode_error
              Samples.hands_51 1 H) as (_ & Hm & _ & Hc).
  split; [rewrite Hm; reflexivity | exact Hc].
Defined.

Lemma trick_failure_fatal_par_failure_not_witness :
  CalcDDtable_returns Samples.engine_par_fails Main.initial_hands 1
    Samples.table_13
  /\ CalcDDtable_returns Samples.engine_dd_fails Main.initial_hands (-2)
       new_ddTableResults
  /\ status (solve Samples.engine_par_fails Samples.decode_error
               Main.initial_hands 2) = "ok"
  /\ optimal_contract
       (par_result (solve Samples.engine_par_fails Samples.decode_error
                      Main.initial_hands 2)) = "-"
  /\ status (solve Samples.engine_dd_fails Samples.decode_error
               Main.initial_hands 2) = "error".
Proof.
  assert (H1 : CalcDDtable_returns Samples.engine_par_fails
                 Main.initial_hands 1 Samples.table_13)
    by (split; reflexivity).
  assert (H2 : CalcDDtable_returns Samples.engine_dd_fails
                 Main.initial_hands (-2) new_ddTableResults)
    by (split; reflexivity).
  split; [exact H1|]. split; [exact H2|].
  destruct (trick_failure_fatal_par_failure_not Samples.engine_par_fails
              Samples.decode_error Main.initial_hands 2 1 Samples.table_13
              H1) as [_ Hok].
  destruct (Hok eq_refl (-1) Samples.table_13 new_parResults)
    as (Hs & _ & _ & Hp).
  { exists 1. split; reflexivity. }
  destruct Hp as [Hc _]; [discriminate|].
  destruct (trick_failure_fatal_par_failure_not Samples.engine_dd_fails
              Samples.decode_error Main.initial_hands 2 (-2)
              new_ddTableResults H2) as [Herr _].
  split; [exact Hs|]. split; [exact Hc|]. apply Herr. discriminate.
Defined.

Lemma par_failure_envelope_witness :
  CalcDDtable_returns Samples.engine_par_fails Main.initial_hands 1
    Samples.table_13
  /\ Par_returns Samples.engine_par_fails Samples.table_13 2 (-1)
       Samples.table_13 new_parResults
  /\ -1 <> 1
  /\ message (solve Samples.engine_par_fails Samples.decode_error
                Main.initial_hands 2) = "DDS Par Error: -1"
  /\ vulnerability_label 2
     = Ret (vulnerability
              (par_result (solve Samples.engine_par_fails
                             Samples.decode_error Main.initial_hands 2))).
Proof.
  assert (H1 : CalcDDtable_returns Samples.engine_par_fails
                 Main.initial_hands 1 Samples.table_13)
    by (split; reflexivity).
  assert (H2 : Par_returns Samples.engine_par_fails Samples.table_13 2 (-1)
                 Samples.table_13 new_parResults)
    by (exists 1; split; reflexivity).
  assert (H3 : -1 <> 1) by lia.
  split; [exact H1|]. split; [exact H2|]. split; [exact H3|].
  destruct (par_failure_envelope Samples.engine_par_fails
              Samples.decode_error Main.initial_hands 2 (-1)
              Samples.table_13 Samples.table_13 new_parResults H1 H2 H3)
    as (_ & Hm & _ & Hl & _).
  split; [rewrite Hm; reflexivity | exact Hl].
Defined.

Lemma trick_failure_keeps_defaults_witness :
  CalcDDtable_returns Samples.engine_dd_fails Main.initial_hands (-2)
    new_ddTableResults
  /\ -2 <> 1
  /\ message (solve Samples.engine_dd_fails Samples.decode_error
                Main.initial_hands 1) = "DDS CalcDDtable Error: -2"
  /\ Main.HISTORY_LOG
       (fst (Main.solve_api Samples.engine_dd_fails Samples.decode_error
               Main.initial_globals [] "id-1" "12:00:00")) = [].
Proof.
  assert (H1 : CalcDDtable_returns Samples.engine_dd_fails
                 Main.initial_hands (-2) new_ddTableResults)
    by (split; reflexivity).
  assert (H2 : -2 <> 1) by lia.
  split; [exact H1|]. split; [exact H2|].
  destruct (trick_failure_keeps_defaults Samples.engine_dd_fails
              Samples.decode_error Main.initial_hands 1 (-2)
              new_ddTableResults H1 H2) as (Hs & Hh).
  split; [rewrite Hs; reflexivity|].
  destruct (Hh Main.initial_globals [] "id-1" "12:00:00" eq_refl eq_refl)
    as (Hlog & _).
  exact Hlog.
Defined.

Lemma decode_failure_is_reported_witness :
  CalcDDtable_returns Samples.engine_bad_text Main.initial_hands 1
    Samples.table_13
  /\ Par_returns Samples.engine_bad_text Samples.table_13 3 1
       Samples.table_13
       (Samples.pres_of (xff :: replicate 127 x00)
          (Samples.buffer 16 "NS 2220"))
  /\ utf8_valid [xff] = false
  /\ status (solve Samples.engine_bad_text Samples.decode_error
               Main.initial_hands 3) = "ok"
  /\ score (par_result (solve Samples.engine_bad_text Samples.decode_error
                          Main.initial_hands 3)) = "0".
Proof.
  assert (H1 : CalcDDtable_returns Samples.engine_bad_text
                 Main.initial_hands 1 Samples.table_13)
    by (split; reflexivity).
  assert (H2 : Par_returns Samples.engine_bad_text Samples.table_13 3 1
                 Samples.table_13
                 (Samples.pres_of (xff :: replicate 127 x00)
                    (Samples.buffer 16 "NS 2220")))
    by (exists 2; split; reflexivity).
  split; [exact H1|]. split; [exact H2|]. split; [reflexivity|].
  destruct (decode_failure_is_reported Samples.engine_bad_text
              Samples.decode_error Main.initial_hands 3 Samples.table_13
              Samples.table_13 _ H1 H2) as (Hs & _ & _ & Hsc).
  { left. reflexivity. }
  split; [exact Hs | exact Hsc].
Defined.

Lemma encoding_depends_on_token_set_witness :
  (forall t, accepted t = true ->
             (In t (tokens Samples.hands_a) <-> In t (tokens Samples.hands_b)))
  /\ fst (build_deal Samples.hands_a) = fst (build_deal Samples.hands_b)
  /\ fst (encode_loop Samples.hands_b (fst (build_deal Samples.hands_a), 5))
     = fst (build_deal Samples.hands_a).
Proof.
  assert (H : forall t, accepted t = true ->
                (In t (tokens Samples.hands_a)
                 <-> In t (tokens Samples.hands_b))).
  { intros t Ht. split; intros Hin; simpl in Hin;
      repeat (destruct Hin as [Hin|Hin];
              [subst t; first [discriminate Ht | simpl; tauto] |]);
      contradiction. }
  split; [exact H|].
  destruct (encoding_depends_on_token_set Samples.hands_a Samples.hands_b H)
    as (H1 & H2).
  split; [exact H1 | exact (H2 5)].
Defined.

(** A fault of the engine, met on the way: the envelope [solve] returns. *)
Example solve_catches_engine_fault :
  solve Samples.engine_raises Samples.decode_error Main.initial_hands 1
  = {| status := "error";
       message := "Python Exception: exception: access violation";
       dd_table := [];
       par_result := {| vulnerability := "Unknown";
                        optimal_contract := "-";
                        score := "0" |} |}.
Proof. reflexivity. Qed.

(** The full deal of main.py on an engine that succeeds. *)
Example solve_full_deal :
  solve Samples.engine_ok Samples.decode_error Main.initial_hands 4
  = {| status := "ok";
       message := "";
       dd_table := decoded_table Samples.table_13;
       par_result := {| vulnerability := "Both";
                        optimal_contract := "NS 7NT";
                        score := "NS 2220" |} |}.
Proof. reflexivity. Qed.

(** * Further properties *)

Import Shape.

(** ** The mask table handed to the engine *)

Lemma dict_get_In {V : Type} (k : string) (d : list (string * V)) (v : V) :
  dict_get k d = Some v -> In (k, v) d.
Proof.
  induction d as [|[k' v'] r IH]; unfold dict_get; fold (@dict_get V);
    [discriminate|].
  destruct (String.eqb_spec k k') as [->|Hne].
  - intros [= ->]. left. reflexivity.
  - intros H. right. apply IH. exact H.
Qed.

(** Every value of [RankMap] is one bit among the positions 2..14. *)
Lemma RankMap_bits (k : string) (bit : Z) :
  dict_get k RankMap = Some bit ->
  popcount bit = 1 /\ within_rank_bits bit.
Proof.
  intros H. apply dict_get_In in H. unfold RankMap in H. simpl in H.
  repeat (destruct H as [H|H];
          [injection H as _ <-; split; reflexivity |]).
  contradiction.
Qed.

Lemma within_rank_bits_mask (m : Z) : within_rank_bits m -> rank_mask m.
Proof.
  intros Hm n Hn. unfold within_rank_bits in Hm. rewrite <- Hm in Hn.
  rewrite Z.land_spec in Hn. apply andb_true_iff in Hn as [_ Hk].
  assert (Hcases : n < 0 \/ n = 0 \/ n = 1 \/ 2 <= n <= 14 \/ 15 <= n)
    by lia.
  destruct Hcases as [H|[->|[->|[H|H]]]]; try discriminate; try lia.
  - rewrite Z.testbit_neg_r in Hk by lia. discriminate.
  - rewrite Z.bits_above_log2 in Hk; [discriminate | lia |].
    change (Z.log2 32764) with 14. lia.
Qed.

Lemma or_within_rank_bits (m bit : Z) :
  within_rank_bits m -> within_rank_bits bit ->
  within_rank_bits (Z.lor m bit mod 2 ^ 32).
Proof.
  unfold within_rank_bits. intros Hm Hb. rewrite <- Hm, <- Hb.
  apply Z.bits_inj'. intros n Hn.
  rewrite !Z.land_spec, !Z.testbit_mod_pow2, !Z.lor_spec, !Z.land_spec
    by lia.
  destruct (n <? 32), (Z.testbit m n), (Z.testbit bit n),
    (Z.testbit 32764 n); reflexivity.
Qed.

(** One card keeps the table 4x4 and within the rank bits. *)
Lemma or_card_table (p_idx suit_idx : nat) (bit : Z) (deal : ddTableDeal) :
  within_rank_bits bit ->
  table_of within_rank_bits deal ->
  table_of within_rank_bits (or_card p_idx suit_idx bit deal).
Proof.
  intros Hb [Hlen Hrows]. unfold table_of, or_card. cbn [cards].
  split; [rewrite length_alter; exact Hlen|].
  apply Forall_alter; [exact Hrows|].
  intros row _ [Hrl Hrow]. split; [rewrite length_alter; exact Hrl|].
  apply Forall_alter; [exact Hrow|].
  intros m _ Hm. apply or_within_rank_bits; assumption.
Qed.

(** What [add_card] does, with the origin of the bit. *)
Lemma add_card_rank_cases (p_idx : nat) (card : string) :
  (forall deal n, add_card p_idx (deal, n) card = (deal, n))
  \/ (exists suit_idx bit k,
        dict_get k RankMap = Some bit
        /\ forall deal n,
             add_card p_idx (deal, n) card
             = (or_card p_idx suit_idx bit deal, n + 1)).
Proof.
  unfold add_card.
  destruct (String.length card <? 2)%nat; [left; reflexivity|].
  destruct (String.get 0 card) as [c0|]; [|left; reflexivity].
  destruct (String.get 1 card) as [c1|]; [|left; reflexivity].
  cbv zeta.
  destruct (dict_get (upper (String c0 "")) RankMap) as [bit|] eqn:Hr;
    [|left; reflexivity].
  destruct (dict_get (upper (String c1 "")) SuitMap) as [suit_idx|];
    [|left; reflexivity].
  right. exists suit_idx, bit, (upper (String c0 "")).
  split; [exact Hr | reflexivity].
Qed.

(** An invariant of the loop body is an invariant of the loop. *)
Lemma encode_loop_invariant (I : ddTableDeal * Z -> Prop) :
  (forall p_idx acc card, I acc -> I (add_card p_idx acc card)) ->
  forall hands_dict acc, I acc -> I (encode_loop hands_dict acc).
Proof.
  intros Hstep. unfold encode_loop.
  induction hands_dict as [|[player cards] rest IH]; intros acc Hacc;
    [exact Hacc|].
  cbn [fold_left]. apply IH. unfold add_hand.
  destruct (dict_get player HandMap) as [p_idx|]; [|exact Hacc].
  revert acc Hacc. induction cards as [|card cards IHc]; intros acc Hacc;
    [exact Hacc|].
  cbn [fold_left]. apply IHc. apply Hstep. exact Hacc.
Qed.

(** X2.  Whatever the hands mapping, the table the encoding loop builds is
    4x4 and every mask in it has set bits at the positions 2..14 only. *)
Theorem build_deal_shape (hands_dict : hands) :
  deal_shape (fst (build_deal hands_dict)).
Proof.
  assert (H : table_of within_rank_bits (fst (build_deal hands_dict))).
  { unfold build_deal.
    apply (encode_loop_invariant
             (fun acc => table_of within_rank_bits (fst acc))).
    - intros p_idx [deal n] card Hacc.
      destruct (add_card_rank_cases p_idx card)
        as [H|(s & bit & k & Hk & H)]; rewrite H; [exact Hacc|].
      apply or_card_table; [|exact Hacc].
      apply (RankMap_bits _ _ Hk).
    - split; [reflexivity|]. cbn [fst new_ddTableDeal cards].
      repeat constructor. }
  destruct H as [Hlen Hrows]. split; [exact Hlen|].
  eapply Forall_impl; [exact Hrows|].
  intros row [Hl Hr]. split; [exact Hl|].
  eapply Forall_impl; [exact Hr|]. apply within_rank_bits_mask.
Qed.

(** ** No more cards in the table than tokens counted *)

Lemma filter_orb_length {A : Type} (P Q : A -> bool) (l : list A) :
  (length (List.filter (fun x => P x || Q x) l)
   <= length (List.filter P l) + length (List.filter Q l))%nat.
Proof.
  induction l as [|x l IH]; simpl; [lia|].
  destruct (P x), (Q x); simpl; lia.
Qed.

Lemma popcount_or (m bit : Z) :
  popcount (Z.lor m bit mod 2 ^ 32) <= popcount m + popcount bit.
Proof.
  unfold popcount.
  rewrite (List.filter_ext_in
             (Z.testbit (Z.lor m bit mod 2 ^ 32))
             (fun n => Z.testbit m n || Z.testbit bit n)).
  - pose proof (filter_orb_length (Z.testbit m) (Z.testbit bit)
                  (map Z.of_nat (seq 0 32))).
    lia.
  - intros n Hn. apply in_map_iff in Hn as (k & <- & Hk).
    apply in_seq in Hk.
    rewrite Z.testbit_mod_pow2, Z.lor_spec by lia.
    replace (Z.of_nat k <? 32) with true by (symmetry; apply Z.ltb_lt; lia).
    reflexivity.
Qed.

Lemma popcount_nonneg (m : Z) : 0 <= popcount m.
Proof. unfold popcount. lia. Qed.

Lemma sum_app (l1 l2 : list Z) :
  fold_right Z.add 0 (l1 ++ l2)
  = fold_right Z.add 0 l1 + fold_right Z.add 0 l2.
Proof. induction l1 as [|x l1 IH]; simpl; [reflexivity | lia]. Qed.

(** Changing one element of a list raises a sum over it by no more than
    the change raises that element. *)
Lemma sum_alter {A : Type} (g : A -> Z) (f : A -> A) (c : Z) :
  0 <= c ->
  (forall x, g (f x) <= g x + c) ->
  forall (l : list A) (i : nat),
    fold_right Z.add 0 (map g (alter f i l))
    <= fold_right Z.add 0 (map g l) + c.
Proof.
  intros Hc Hf. induction l as [|x l IH]; intros i; [simpl; lia|].
  destruct i as [|i]; simpl.
  - specialize (Hf x). lia.
  - specialize (IH i). change (list_alter f i l) with (alter f i l). lia.
Qed.

Lemma sum_concat (rows : list (list Z)) :
  fold_right Z.add 0 (map popcount (concat rows))
  = fold_right Z.add 0
      (map (fun row => fold_right Z.add 0 (map popcount row)) rows).
Proof.
  induction rows as [|row rows IH]; simpl; [reflexivity|].
  rewrite map_app, sum_app, IH. reflexivity.
Qed.

Lemma or_card_popcount (p_idx suit_idx : nat) (bit : Z)
  (deal : ddTableDeal) :
  deal_popcount (or_card p_idx suit_idx bit deal)
  <= deal_popcount deal + popcount bit.
Proof.
  unfold deal_popcount, or_card. cbn [cards]. rewrite !sum_concat.
  apply sum_alter; [apply popcount_nonneg|].
  intros row. apply sum_alter; [apply popcount_nonneg|].
  intros m. apply popcount_or.
Qed.

(** X3.  The table the loop builds never holds more set bits than the loop
    counted accepted tokens: a run that passes the count check hands the
    engine 52 cards at most. *)
Theorem deal_popcount_at_most_count (hands_dict : hands) :
  deal_popcount (fst (build_deal hands_dict)) <= accepted_count hands_dict.
Proof.
  rewrite <- total_cards_accepted. unfold build_deal.
  apply (encode_loop_invariant
           (fun acc => deal_popcount (fst acc) <= snd acc)).
  - intros p_idx [deal n] card Hacc. cbn [fst snd] in Hacc.
    destruct (add_card_rank_cases p_idx card)
      as [H|(s & bit & k & Hk & H)]; rewrite H; cbn [fst snd];
      [exact Hacc|].
    pose proof (or_card_popcount p_idx s bit deal) as Hp.
    destruct (RankMap_bits _ _ Hk) as [H1 _]. lia.
  - reflexivity.
Qed.

(** ** How a token is read *)




Lemma add_card_two_chars (p_idx : nat) (acc : ddTableDeal * Z)
  (card : string) :
  add_card p_idx acc (two_chars card) = add_card p_idx acc card.
Proof.
  destruct acc as [deal n]. destruct card as [|c0 [|c1 rest]];
    reflexivity.
Qed.

(** Rewriting the tokens by a function the loop body does not see leaves
    the whole loop as it is. *)
Lemma encode_loop_map_cards (f : string -> string) :
  (forall p_idx acc card,
      add_card p_idx acc (f card) = add_card p_idx acc card) ->
  forall hands_dict acc,
    encode_loop (map_cards f hands_dict) acc = encode_loop hands_dict acc.
Proof.
  intros Hf. unfold encode_loop, map_cards.
  induction hands_dict as [|[player cards] rest IH]; intros acc;
    [reflexivity|].
  cbn [map fold_left fst snd]. rewrite IH. f_equal. unfold add_hand.
  destruct (dict_get player HandMap) as [p_idx|]; [|reflexivity].
  revert acc. induction cards as [|card cards IHc]; intros acc;
    [reflexivity|].
  cbn [map fold_left]. rewrite Hf. apply IHc.
Qed.


(** X5.  Only the first two characters of a token are read: cutting every
    token of a hands mapping down to them changes neither the table nor the
    count, and a token of fewer than two characters is skipped. *)
Theorem tokens_read_two_chars (hands_dict : hands) :
  build_deal (map_cards two_chars hands_dict) = build_deal hands_dict
  /\ forall p_idx acc card,
       (String.length card < 2)%nat -> add_card p_idx acc card = acc.
Proof.
  split.
  - unfold build_deal. apply encode_loop_map_cards.
    apply add_card_two_chars.
  - intros p_idx [deal n] card Hlen.
    destruct card as [|c0 [|c1 rest]]; [reflexivity | reflexivity |].
    simpl in Hlen. lia.
Qed.

Lemma tokens_read_two_chars_witness :
  (String.length "A" < 2)%nat
  /\ add_card 0 (new_ddTableDeal, 0) "A" = (new_ddTableDeal, 0)
  /\ build_deal (map_cards two_chars [("N", ["ASx"; "kh10"; "2"])])
     = build_deal [("N", ["ASx"; "kh10"; "2"])].
Proof.
  assert (H : (String.length "A" < 2)%nat) by (simpl; lia).
  split; [exact H|].
  destruct (tokens_read_two_chars [("N", ["ASx"; "kh10"; "2"])])
    as [H1 H2].
  split; [exact (H2 0%nat (new_ddTableDeal, 0) "A" H) | exact H1].
Defined.

(** A seat name is matched as it stands: any key other than N, E, S, W
    leaves the loop state as it is, whatever cards go with it. *)
Lemma add_hand_unknown_seat (acc : ddTableDeal * Z) (player : string)
  (cards : list string) :
  is_seat player = false -> add_hand acc (player, cards) = acc.
Proof.
  rewrite seat_lookup. unfold add_hand.
  destruct (dict_get player HandMap); [discriminate | reflexivity].
Qed.

(** ** The five ways a run of [solve] can go *)

Section MoreRuns.

Variable lib : dds.
Variable UnicodeDecodeError : list byte -> exn.

#[local] Abbreviation solve := (Solver.solve lib UnicodeDecodeError).
#[local] Abbreviation solve_run :=
  (Solver.solve_run lib UnicodeDecodeError).
#[local] Abbreviation engine_calls :=
  (Solver.engine_calls lib UnicodeDecodeError).

(** The run in which [CalcDDtable] raises. *)
Lemma run_dd_raises (hands_dict : hands) (round_num : Z) (e : exn) :
  snd (build_deal hands_dict) = 52 ->
  CalcDDtable lib (fst (build_deal hands_dict)) new_ddTableResults
    = Raise e ->
  solve_run hands_dict round_num
  = {| result_data :=
         {| status := "error";
            message := "Python Exception: " ++ e;
            dd_table := [];
            par_result := par_result default_result_data |};
       calls := [Call_CalcDDtable (fst (build_deal hands_dict))] |}.
Proof.
  intros Hn Hdd. unfold Solver.solve_run, solve_try.
  destruct (build_deal hands_dict) as [deal total_cards]. simpl in *.
  subst total_cards. simpl. unfold bind, call_CalcDDtable. rewrite Hdd.
  reflexivity.
Qed.

(** The run in which [Par] raises. *)
Lemma run_par_raises (hands_dict : hands) (round_num vul_val : Z)
  (table : ddTableResults) (e : exn) :
  CalcDDtable_returns lib hands_dict 1 table ->
  get_vulnerability round_num = Ret vul_val ->
  Par lib table new_parResults vul_val = Raise e ->
  solve_run hands_dict round_num
  = {| result_data :=
         {| status := "error";
            message := "Python Exception: " ++ e;
            dd_table := [];
            par_result := par_result default_result_data |};
       calls := [Call_CalcDDtable (fst (build_deal hands_dict));
                 Call_Par table vul_val] |}.
Proof.
  intros [Hn Hdd] Hv Hpar.
  destruct (label_of_round _ _ Hv) as (vuln_str & Hs & _).
  unfold Solver.solve_run, solve_try.
  destruct (build_deal hands_dict) as [deal total_cards]. simpl in *.
  subst total_cards. simpl. unfold bind, call_CalcDDtable, call_Par, lift.
  rewrite Hdd. simpl. rewrite Hv, Hs. simpl. rewrite Hpar. reflexivity.
Qed.

Lemma run_cases (hands_dict : hands) (round_num : Z) :
  (snd (build_deal hands_dict) <> 52
   /\ solve_run hands_dict round_num
      = {| result_data :=
             {| status := "error";
                message := "Invalid card count: "
                           ++ str_int (snd (build_deal hands_dict));
                dd_table := [];
                par_result := par_result default_result_data |};
           calls := [] |})
  \/ (exists e,
        snd (build_deal hands_dict) = 52
        /\ CalcDDtable lib (fst (build_deal hands_dict)) new_ddTableResults
           = Raise e
        /\ solve_run hands_dict round_num
           = {| result_data :=
                  {| status := "error";
                     message := "Python Exception: " ++ e;
                     dd_table := [];
                     par_result := par_result default_result_data |};
                calls := [Call_CalcDDtable (fst (build_deal hands_dict))] |})
  \/ (exists res_dd table,
        CalcDDtable_returns lib hands_dict res_dd table
        /\ res_dd <> 1
        /\ solve_run hands_dict round_num
           = {| result_data :=
                  {| status := "error";
                     message := "DDS CalcDDtable Error: " ++ str_int res_dd;
                     dd_table := [];
                     par_result := par_result default_result_data |};
                calls := [Call_CalcDDtable (fst (build_deal hands_dict))] |})
  \/ (exists table vul_val e,
        CalcDDtable_returns lib hands_dict 1 table
        /\ get_vulnerability round_num = Ret vul_val
        /\ Par lib table new_parResults vul_val = Raise e
        /\ solve_run hands_dict round_num
           = {| result_data :=
                  {| status := "error";
                     message := "Python Exception: " ++ e;
                     dd_table := [];
                     par_result := par_result default_result_data |};
                calls := [Call_CalcDDtable (fst (build_deal hands_dict));
                          Call_Par table vul_val] |})
  \/ (exists table vul_val vuln_str res_par table' pres,
        CalcDDtable_returns lib hands_dict 1 table
        /\ get_vulnerability round_num = Ret vul_val
        /\ vulnerability_label round_num = Ret vuln_str
        /\ Par lib table new_parResults vul_val = Ret (res_par, table', pres)
        /\ solve_run hands_dict round_num
           = {| result_data :=
                  {| status := "ok";
                     message := if res_par =? 1 then ""
                                else "DDS Par Error: " ++ str_int res_par;
                     dd_table := decoded_table table';
                     par_result :=
                       {| vulnerability := vuln_str;
                          optimal_contract :=
                            fst (if res_par =? 1
                                 then decode_par UnicodeDecodeError pres
                                        "-" "0"
                                 else ("-", "0"));
                          score :=
                            snd (if res_par =? 1
                                 then decode_par UnicodeDecodeError pres
                                        "-" "0"
                                 else ("-", "0")) |} |};
                calls := [Call_CalcDDtable (fst (build_deal hands_dict));
                          Call_Par table vul_val] |}).
Proof.
  destruct (Z.eq_dec (snd (build_deal hands_dict)) 52) as [H52|Hn];
    [|left; split; [exact Hn | apply run_invalid_count; exact Hn]].
  right.
  destruct (CalcDDtable lib (fst (build_deal hands_dict)) new_ddTableResults)
    as [[res_dd table]|e] eqn:Hdd;
    [|left; exists e; repeat split; try assumption;
      apply run_dd_raises; assumption].
  right. assert (Hret : CalcDDtable_returns lib hands_dict res_dd table)
    by (split; assumption).
  destruct (Z.eq_dec res_dd 1) as [->|Hne];
    [|left; exists res_dd, table; repeat split; try assumption;
      apply (run_dd_fails lib UnicodeDecodeError _ _ _ _ Hret Hne)].
  right. destruct (get_vulnerability_total round_num) as (vul_val & Hv & _).
  destruct (label_of_round _ _ Hv) as (vuln_str & Hs & Hl & _).
  destruct (Par lib table new_parResults vul_val)
    as [[[res_par table'] pres]|e] eqn:Hpar.
  - right. exists table, vul_val, vuln_str, res_par, table', pres.
    repeat split; try assumption.
    apply (run_par_stage lib UnicodeDecodeError _ _ _ _ _ _ _ _
             Hret Hv Hs Hpar).
  - left. exists table, vul_val, e. repeat split; try assumption.
    apply (run_par_raises _ _ _ _ _ Hret Hv Hpar).
Qed.

(** X6.  The engine is called in one of three ways: not at all, when the
    count is not 52; [CalcDDtable] alone, on the table built, when it does
    not return 1; or [CalcDDtable] and then [Par], once each, [Par] on the
    table that [CalcDDtable] left and with the code of the round. *)
Theorem engine_call_protocol (hands_dict : hands) (round_num : Z) :
  (snd (build_deal hands_dict) <> 52
   /\ engine_calls hands_dict round_num = [])
  \/ (snd (build_deal hands_dict) = 52
      /\ (forall table,
             CalcDDtable lib (fst (build_deal hands_dict)) new_ddTableResults
             <> Ret (1, table))
      /\ engine_calls hands_dict round_num
         = [Call_CalcDDtable (fst (build_deal hands_dict))])
  \/ (exists table vul_val,
        snd (build_deal hands_dict) = 52
        /\ CalcDDtable lib (fst (build_deal hands_dict)) new_ddTableResults
           = Ret (1, table)
        /\ get_vulnerability round_num = Ret vul_val
        /\ engine_calls hands_dict round_num
           = [Call_CalcDDtable (fst (build_deal hands_dict));
              Call_Par table vul_val]).
Proof.
  unfold Solver.engine_calls.
  destruct (run_cases hands_dict round_num)
    as [(Hn & ->)
       |[(e & Hn & Hdd & ->)
        |[(res_dd & table & [Hn Hdd] & Hne & ->)
         |[(table & v & e & [Hn Hdd] & Hv & Hpar & ->)
          |(table & v & s & res_par & table' & pres & [Hn Hdd] & Hv & _
            & Hpar & ->)]]]].
  - left. split; [exact Hn | reflexivity].
  - right. left. split; [exact Hn|]. split; [|reflexivity].
    intros table. rewrite Hdd. discriminate.
  - right. left. split; [exact Hn|]. split; [|reflexivity].
    intros table'. rewrite Hdd. intros [= H]. contradiction.
  - right. right. exists table, v. repeat split; assumption.
  - right. right. exists table, v. repeat split; assumption.
Qed.

(** X7.  The status is "ok" exactly in the runs where [CalcDDtable] returns
    1 and the [Par] call returns, with whatever code. *)
Theorem status_ok_iff (hands_dict : hands) (round_num : Z) :
  status (solve hands_dict round_num) = "ok"
  <-> exists table res_par table' pres,
        CalcDDtable_returns lib hands_dict 1 table
        /\ Par_returns lib table round_num res_par table' pres.
Proof.
  unfold Solver.solve. split.
  - destruct (run_cases hands_dict round_num)
      as [(Hn & ->)
         |[(e & Hn & Hdd & ->)
          |[(res_dd & table & Hret & Hne & ->)
           |[(table & v & e & Hret & Hv & Hpar & ->)
            |(table & v & s & res_par & table' & pres & Hret & Hv & _
              & Hpar & ->)]]]]; try discriminate.
    intros _. exists table, res_par, table', pres.
    split; [exact Hret|]. exists v. split; assumption.
  - intros (table & res_par & table' & pres & Hret & v & Hv & Hpar).
    destruct (label_of_round _ _ Hv) as (vuln_str & Hs & _).
    rewrite (run_par_stage lib UnicodeDecodeError _ _ _ _ _ _ _ _
               Hret Hv Hs Hpar).
    reflexivity.
Qed.

(** X8.  An envelope whose status is not "ok" has status "error", a
    non-empty message, an empty dd_table and the default par_result: no
    partial result is ever sent with an error. *)
Theorem error_envelope_is_bare (hands_dict : hands) (round_num : Z) :
  status (solve hands_dict round_num) <> "ok" ->
  status (solve hands_dict round_num) = "error"
  /\ message (solve hands_dict round_num) <> ""
  /\ dd_table (solve hands_dict round_num) = []
  /\ par_result (solve hands_dict round_num)
     = {| vulnerability := "Unknown";
          optimal_contract := "-";
          score := "0" |}.
Proof.
  unfold Solver.solve.
  destruct (run_cases hands_dict round_num)
    as [(Hn & ->)
       |[(e & Hn & Hdd & ->)
        |[(res_dd & table & Hret & Hne & ->)
         |[(table & v & e & Hret & Hv & Hpar & ->)
          |(table & v & s & res_par & table' & pres & Hret & Hv & _
            & Hpar & ->)]]]]; cbn [result_data status message dd_table
                                   par_result];
    intros Hs; try (repeat split; discriminate).
  contradiction.
Qed.

End MoreRuns.

(** ** The vulnerability of any integer round *)

(** X1.  [get_vulnerability] returns on every integer, rounds below 1
    included, with a code among 0, 1, 2, 3, and repeats every 16 rounds in
    both directions. *)
Theorem get_vulnerability_every_integer (round : Z) :
  (exists vul_val,
      get_vulnerability round = Ret vul_val /\ 0 <= vul_val <= 3)
  /\ get_vulnerability (round - 16) = get_vulnerability round
  /\ get_vulnerability (round + 16) = get_vulnerability round.
Proof.
  split; [apply get_vulnerability_total|].
  unfold get_vulnerability. split; f_equal.
  - replace (round - 16 - 1) with (round - 1 + (-1) * 16) by lia.
    apply Z_mod_plus_full.
  - replace (round + 16 - 1) with (round - 1 + 1 * 16) by lia.
    apply Z_mod_plus_full.
Qed.

(** ** Text read back from the par buffers *)

Section MoreDecoding.

Variable lib : dds.
Variable UnicodeDecodeError : list byte -> exn.

#[local] Abbreviation solve := (Solver.solve lib UnicodeDecodeError).

Lemma before_first_has_none (c : ascii) (s : string) :
  char_in c (before_first c s) = false.
Proof.
  induction s as [|a r IH]; simpl; [reflexivity|].
  destruct (Ascii.eqb a c) eqn:Ha; simpl; [reflexivity|].
  rewrite Ha, IH. reflexivity.
Qed.

(** X9.  Whatever the buffer, a contract that [_format_contract] returns
    holds no colon: formatting its result again would change nothing. *)
Theorem format_contract_has_no_colon (raw : list byte) (contract : string) :
  _format_contract UnicodeDecodeError raw = Ret contract ->
  char_in ":" contract = false.
Proof.
  destruct (utf8_valid (value raw)) eqn:Hv;
    [|rewrite (format_contract_raises _ _ Hv); discriminate].
  destruct (char_in ":" (string_of_list_byte (value raw))) eqn:Hc.
  - rewrite (format_contract_colon _ _ Hv Hc). intros [= <-].
    apply before_first_has_none.
  - rewrite (format_contract_no_colon _ _ Hv Hc). intros [= <-]. exact Hc.
Qed.

Lemma plain_char_byte (c : ascii) :
  plain_char c = true ->
  Byte.eqb (byte_of_ascii c) x00 = false
  /\ in_range 0 127 (byte_of_ascii c) = true.
Proof.
  destruct c as [[] [] [] [] [] [] [] []]; intros H;
    first [discriminate H | split; reflexivity].
Qed.

Lemma value_plain (s : string) (rest : list byte) :
  plain_text s = true ->
  value (list_byte_of_string s ++ x00 :: rest)%list
  = list_byte_of_string s.
Proof.
  induction s as [|c r IH]; [reflexivity|].
  cbn [plain_text]. intros H. apply andb_true_iff in H as [Hc Hr].
  change (list_byte_of_string (String c r))
    with (byte_of_ascii c :: list_byte_of_string r).
  cbn [app value]. destruct (plain_char_byte c Hc) as [-> _].
  rewrite (IH Hr). reflexivity.
Qed.

Lemma utf8_plain (s : string) :
  plain_text s = true -> utf8_valid (list_byte_of_string s) = true.
Proof.
  induction s as [|c r IH]; [reflexivity|].
  cbn [plain_text]. intros H. apply andb_true_iff in H as [Hc Hr].
  change (list_byte_of_string (String c r))
    with (byte_of_ascii c :: list_byte_of_string r).
  cbn [utf8_valid]. destruct (plain_char_byte c Hc) as [_ ->].
  exact (IH Hr).
Qed.

(** Plain text followed by a NUL is decoded to itself. *)
Lemma decode_plain (s : string) (rest : list byte) :
  plain_text s = true ->
  decode_utf8 UnicodeDecodeError
    (value (list_byte_of_string s ++ x00 :: rest)%list) = Ret s.
Proof.
  intros H. rewrite (value_plain _ _ H). unfold decode_utf8.
  rewrite (utf8_plain _ H), string_of_list_byte_of_string. reflexivity.
Qed.

(** X10.  In a run where both engine calls return 1 and the slot-0 buffers
    hold plain text, each ended by a NUL, the score of the envelope is the
    score text as written, the contract is the contract text when that has
    no colon and otherwise its piece between the first colon and the next,
    and the message is empty. *)
Theorem par_text_read_back (hands_dict : hands) (round_num : Z)
  (table table' : ddTableResults) (pres : parResults)
  (contract_text score_text : string) (rest_c rest_s : list byte) :
  CalcDDtable_returns lib hands_dict 1 table ->
  Par_returns lib table round_num 1 table' pres ->
  plain_text contract_text = true ->
  plain_text score_text = true ->
  fst (parContractsString pres)
  = (list_byte_of_string contract_text ++ x00 :: rest_c)%list ->
  fst (parScore pres)
  = (list_byte_of_string score_text ++ x00 :: rest_s)%list ->
  score (par_result (solve hands_dict round_num)) = score_text
  /\ optimal_contract (par_result (solve hands_dict round_num))
     = (if char_in ":" contract_text
        then before_first ":" (after_first ":" contract_text)
        else contract_text)
  /\ message (solve hands_dict round_num) = "".
Proof.
  intros Hdd (vul_val & Hv & Hpar) Hpc Hps Hc Hs.
  destruct (label_of_round _ _ Hv) as (vuln_str & Hl & _).
  unfold Solver.solve.
  rewrite (run_par_stage lib UnicodeDecodeError _ _ _ _ _ _ _ _
             Hdd Hv Hl Hpar).
  cbn [result_data score optimal_contract par_result message Z.eqb Pos.eqb].
  unfold decode_par, _format_contract. rewrite Hc, Hs, !decode_plain by
    assumption.
  destruct (char_in ":" contract_text) eqn:Hcolon.
  - destruct (split_pieces _ _ Hcolon) as (ps & ->).
    rewrite index_in_range by (cbn [length]; lia).
    repeat split.
  - repeat split.
Qed.

End MoreDecoding.

Lemma par_text_read_back_witness :
  CalcDDtable_returns Samples.engine_ok Main.initial_hands 1
    Samples.table_13
  /\ plain_text "NS:NS 7NT" = true
  /\ optimal_contract
       (par_result (solve Samples.engine_ok Samples.decode_error
                      Main.initial_hands 4)) = "NS 7NT"
  /\ score (par_result (solve Samples.engine_ok Samples.decode_error
                          Main.initial_hands 4)) = "NS 2220".
Proof.
  assert (H1 : CalcDDtable_returns Samples.engine_ok Main.initial_hands 1
                 Samples.table_13) by (split; reflexivity).
  assert (H2 : Par_returns Samples.engine_ok Samples.table_13 4 1
                 Samples.table_13
                 (Samples.pres_of (Samples.buffer 128 "NS:NS 7NT")
                    (Samples.buffer 16 "NS 2220")))
    by (exists 3; split; reflexivity).
  assert (H3 : plain_text "NS:NS 7NT" = true) by reflexivity.
  assert (H4 : plain_text "NS 2220" = true) by reflexivity.
  split; [exact H1|]. split; [exact H3|].
  destruct (par_text_read_back Samples.engine_ok Samples.decode_error
              Main.initial_hands 4 Samples.table_13 Samples.table_13
              _ "NS:NS 7NT" "NS 2220" (replicate 118 x00) (replicate 8 x00)
              H1 H2 H3 H4 eq_refl eq_refl) as (Hs & Hc & _).
  split; [exact Hc | exact Hs].
Defined.

Lemma format_contract_has_no_colon_witness :
  _format_contract Samples.decode_error (Samples.buffer 128 "NS:3NT:X")
  = Ret "3NT"
  /\ char_in ":" "3NT" = false.
Proof.
  assert (H : _format_contract Samples.decode_error
                (Samples.buffer 128 "NS:3NT:X") = Ret "3NT")
    by reflexivity.
  split; [exact H|].
  exact (format_contract_has_no_colon Samples.decode_error _ _ H).
Defined.

(** ** The console variant of the solver *)

Section ConsoleRuns.

Variable lib : dds.
Variable UnicodeDecodeError : list byte -> exn.

#[local] Abbreviation debug_run :=
  (Console.debug_run lib UnicodeDecodeError).

(** The run of [solve_debug_console], by what [CalcDDtable] does. *)
Lemma debug_run_returns (hands_dict : hands) (round res : Z)
  (table : ddTableResults) :
  CalcDDtable lib (fst (build_deal hands_dict)) new_ddTableResults
    = Ret (res, table) ->
  debug_run hands_dict round
  = if res =? 1 then
      ({| Console.stdout :=
            (Console.count_warning (snd (build_deal hands_dict))
             ++ Console.table_text table)%list;
          Console.made := [Call_CalcDDtable (fst (build_deal hands_dict))] |},
       Raise "'BridgeSolver' object has no attribute 'vulnerability'")
    else
      ({| Console.stdout :=
            (Console.count_warning (snd (build_deal hands_dict))
             ++ [("DDS Calculation Error, code: " ++ str_int res)%string])%list;
          Console.made := [Call_CalcDDtable (fst (build_deal hands_dict))] |},
       Ret tt).
Proof.
  unfold Console.debug_run, Console.solve_debug_console, build_deal,
    Console.count_warning.
  destruct (encode_loop hands_dict (new_ddTableDeal, 0))
    as [deal total_cards].
  cbn [fst snd]. intros Hdd.
  destruct (negb (total_cards =? 52));
    unfold Console.bind_c, Console.print, Console.ret_c,
      Console.call_CalcDDtable_c; cbn [Console.stdout Console.made app];
    rewrite Hdd; destruct (res =? 1); reflexivity.
Qed.

Lemma debug_run_raises (hands_dict : hands) (round : Z) (e : exn) :
  CalcDDtable lib (fst (build_deal hands_dict)) new_ddTableResults
    = Raise e ->
  debug_run hands_dict round
  = ({| Console.stdout :=
          Console.count_warning (snd (build_deal hands_dict));
        Console.made := [Call_CalcDDtable (fst (build_deal hands_dict))] |},
     Raise e).
Proof.
  unfold Console.debug_run, Console.solve_debug_console, build_deal,
    Console.count_warning.
  destruct (encode_loop hands_dict (new_ddTableDeal, 0))
    as [deal total_cards].
  cbn [fst snd]. intros Hdd.
  destruct (negb (total_cards =? 52));
    unfold Console.bind_c, Console.print, Console.ret_c,
      Console.call_CalcDDtable_c; cbn [Console.stdout Console.made app];
    rewrite Hdd; reflexivity.
Qed.

(** X11.  [solve_debug_console] has no count check in front of the engine:
    for every hands mapping it calls [CalcDDtable] on the table built, a
    count other than 52 only printing a warning first; and it never calls
    [Par]. *)
Theorem debug_console_calls (hands_dict : hands) (round : Z) :
  Console.made (fst (debug_run hands_dict round))
  = [Call_CalcDDtable (fst (build_deal hands_dict))]
  /\ exists lines,
       Console.stdout (fst (debug_run hands_dict round))
       = (Console.count_warning (accepted_count hands_dict) ++ lines)%list.
Proof.
  rewrite <- total_cards_accepted.
  destruct (CalcDDtable lib (fst (build_deal hands_dict)) new_ddTableResults)
    as [[res table]|e] eqn:Hdd.
  - rewrite (debug_run_returns _ round _ _ Hdd).
    destruct (res =? 1); cbn [fst Console.made Console.stdout];
      split; eauto.
  - rewrite (debug_run_raises _ round _ Hdd).
    cbn [fst Console.made Console.stdout]. split; [reflexivity|].
    exists []. rewrite app_nil_r. reflexivity.
Qed.

(** X12.  When [CalcDDtable] returns 1, [solve_debug_console] prints the
    heading, the five rows in the order NT, Pik, Kier, Karo, Trefl with the
    columns North, South, East, West, and the closing rule, and then raises
    AttributeError on [self.vulnerability]: the par result is never
    printed.  When it returns another code, the function prints
    "DDS Calculation Error, code: " with the code and returns. *)
Theorem debug_console_outcome (hands_dict : hands) (round res : Z)
  (table : ddTableResults) :
  CalcDDtable lib (fst (build_deal hands_dict)) new_ddTableResults
    = Ret (res, table) ->
  (res = 1 ->
   snd (debug_run hands_dict round)
   = Raise "'BridgeSolver' object has no attribute 'vulnerability'"
   /\ Console.stdout (fst (debug_run hands_dict round))
      = (Console.count_warning (accepted_count hands_dict)
         ++ Console.table_text table)%list)
  /\ (res <> 1 ->
      snd (debug_run hands_dict round) = Ret tt
      /\ Console.stdout (fst (debug_run hands_dict round))
         = (Console.count_warning (accepted_count hands_dict)
            ++ [("DDS Calculation Error, code: " ++ str_int res)%string])%list).
Proof.
  intros Hdd. rewrite <- total_cards_accepted.
  rewrite (debug_run_returns _ round _ _ Hdd). split.
  - intros ->. split; reflexivity.
  - intros Hne. apply Z.eqb_neq in Hne. rewrite Hne. split; reflexivity.
Qed.

End ConsoleRuns.

Lemma debug_console_outcome_witness :
  CalcDDtable Samples.engine_ok (fst (build_deal Samples.hands_51))
    new_ddTableResults = Ret (1, Samples.table_13)
  /\ snd (Console.debug_run Samples.engine_ok Samples.decode_error
            Samples.hands_51 1)
     = Raise "'BridgeSolver' object has no attribute 'vulnerability'"
  /\ length (Console.stdout
               (fst (Console.debug_run Samples.engine_ok
                       Samples.decode_error Samples.hands_51 1)))
     = 11%nat
  /\ snd (Console.debug_run Samples.engine_dd_fails Samples.decode_error
            Main.initial_hands 1) = Ret tt.
Proof.
  assert (H1 : CalcDDtable Samples.engine_ok
                 (fst (build_deal Samples.hands_51)) new_ddTableResults
               = Ret (1, Samples.table_13)) by reflexivity.
  assert (H2 : CalcDDtable Samples.engine_dd_fails
                 (fst (build_deal Main.initial_hands)) new_ddTableResults
               = Ret (-2, new_ddTableResults)) by reflexivity.
  split; [exact H1|].
  destruct (debug_console_outcome Samples.engine_ok Samples.decode_error
              Samples.hands_51 1 1 Samples.table_13 H1) as [Hok _].
  destruct (Hok eq_refl) as [Hr Hs].
  destruct (debug_console_outcome Samples.engine_dd_fails
              Samples.decode_error Main.initial_hands 1 (-2)
              new_ddTableResults H2) as [_ Hbad].
  destruct Hbad as [Hb _]; [discriminate|].
  split; [exact Hr|]. split; [rewrite Hs; reflexivity | exact Hb].
Defined.

(** ** The lobby *)

Lemma dict_get_cons {V : Type} (k k' : string) (v : V)
  (d : list (string * V)) :
  dict_get k ((k', v) :: d)
  = if String.eqb k k' then Some v else dict_get k d.
Proof. reflexivity. Qed.

(** Reading a dict after a write. *)
Lemma dict_get_set {V : Type} (k k' : string) (v : V)
  (d : list (string * V)) :
  dict_get k (dict_set k' v d)
  = if String.eqb k k' then Some v else dict_get k d.
Proof.
  induction d as [|[k1 v1] r IH]; cbn [dict_set].
  - rewrite dict_get_cons. reflexivity.
  - destruct (String.eqb_spec k' k1) as [->|Hne]; rewrite !dict_get_cons.
    + destruct (String.eqb k k1); reflexivity.
    + rewrite IH. destruct (String.eqb_spec k k1) as [->|Hk]; [|reflexivity].
      destruct (String.eqb_spec k1 k') as [->|_]; [contradiction|].
      reflexivity.
Qed.

Lemma dict_get_None {V : Type} (k : string) (d : list (string * V)) :
  dict_get k d = None <-> ~ In k (map fst d).
Proof.
  induction d as [|[k1 v1] r IH]; [cbn; tauto|].
  rewrite dict_get_cons. cbn [map fst In].
  destruct (String.eqb_spec k k1) as [->|Hne].
  - split; [discriminate | intros H; exfalso; apply H; left; reflexivity].
  - rewrite IH. split; [intros H [Heq|Hin]; [congruence | tauto] | tauto].
Qed.

(** Writing an existing key keeps the keys and their order. *)
Lemma dict_set_keys {V : Type} (k : string) (v : V) (d : list (string * V)) :
  In k (map fst d) -> map fst (dict_set k v d) = map fst d.
Proof.
  induction d as [|[k1 v1] r IH]; [contradiction|].
  cbn [dict_set map fst In].
  destruct (String.eqb_spec k k1) as [->|Hne]; [reflexivity|].
  intros [Heq|Hin]; [congruence|]. cbn [map fst]. rewrite (IH Hin).
  reflexivity.
Qed.

Lemma dict_get_app {V : Type} (k : string) (pre d : list (string * V)) :
  ~ In k (map fst pre) -> dict_get k (pre ++ d)%list = dict_get k d.
Proof.
  induction pre as [|[k1 v1] r IH]; [reflexivity|].
  cbn [map fst In app]. intros H. rewrite dict_get_cons.
  destruct (String.eqb_spec k k1) as [->|Hne]; [tauto|].
  apply IH. tauto.
Qed.

Lemma dict_set_app {V : Type} (k : string) (v v0 : V)
  (pre rest : list (string * V)) :
  ~ In k (map fst pre) ->
  dict_set k v (pre ++ (k, v0) :: rest)%list = (pre ++ (k, v) :: rest)%list.
Proof.
  induction pre as [|[k1 v1] r IH]; cbn [map fst In app dict_set].
  - rewrite String.eqb_refl. reflexivity.
  - intros H. destruct (String.eqb_spec k k1) as [->|Hne]; [tauto|].
    rewrite IH by tauto. reflexivity.
Qed.

Lemma dict_get_map {V W : Type} (h : V -> W) (k : string)
  (d : list (string * V)) :
  dict_get k (map (fun it => (fst it, h (snd it))) d)
  = option_map h (dict_get k d).
Proof.
  induction d as [|[k1 v1] r IH]; [reflexivity|].
  cbn [map fst snd]. rewrite !dict_get_cons.
  destruct (String.eqb k k1); [reflexivity | exact IH].
Qed.

Lemma dict_get_In_key {V : Type} (k : string) (v : V)
  (d : list (string * V)) :
  List.NoDup (map fst d) -> In (k, v) d -> dict_get k d = Some v.
Proof.
  induction d as [|[k1 v1] r IH]; [contradiction|].
  cbn [map fst]. intros Hnd [Heq|Hin]; rewrite dict_get_cons.
  - injection Heq as -> ->. rewrite String.eqb_refl. reflexivity.
  - apply List.NoDup_cons_iff in Hnd as [Hk Hnd].
    destruct (String.eqb_spec k k1) as [->|Hne]; [|apply IH; assumption].
    exfalso. apply Hk. apply in_map_iff. exists (k1, v). split;
      [reflexivity | exact Hin].
Qed.

(** A loop that rewrites the entry of each key it meets, one after the
    other, is a map over the table. *)
Lemma fold_rewrite {V : Type}
  (step : list (string * V) -> string * V -> list (string * V))
  (h : V -> V) :
  (forall pre s occ rest,
      ~ In s (map fst pre) ->
      step (pre ++ (s, occ) :: rest)%list (s, occ)
      = (pre ++ (s, h occ) :: rest)%list) ->
  forall items pre,
    List.NoDup (map fst (pre ++ items)%list) ->
    fold_left step items (pre ++ items)%list
    = (pre ++ map (fun it => (fst it, h (snd it))) items)%list.
Proof.
  intros Hstep. induction items as [|[s occ] rest IH]; intros pre Hnd;
    [reflexivity|].
  cbn [fold_left map fst snd].
  assert (Hs : ~ In s (map fst pre)).
  { rewrite map_app in Hnd. cbn [map fst] in Hnd.
    apply List.NoDup_remove_2 in Hnd. intros Hin. apply Hnd.
    apply in_or_app. left. exact Hin. }
  rewrite (Hstep pre s occ rest Hs).
  change (pre ++ (s, h occ) :: rest)%list
    with (pre ++ [(s, h occ)] ++ rest)%list.
  rewrite app_assoc. rewrite IH.
  - rewrite <- app_assoc. reflexivity.
  - rewrite <- app_assoc. rewrite map_app in *. exact Hnd.
Qed.

Lemma fold_left_keys {V : Type}
  (step : list (string * V) -> string -> list (string * V))
  (items acc : list (string * V)) :
  fold_left step (map fst items) acc
  = fold_left (fun a it => step a (fst it)) items acc.
Proof.
  revert acc. induction items as [|it items IH]; intros acc;
    [reflexivity | apply IH].
Qed.

Lemma opt_eqb_eq (a b : option string) : Lobby.opt_eqb a b = true <-> a = b.
Proof.
  destruct a as [x|], b as [y|]; cbn; try (split; [discriminate|congruence]);
    [|tauto].
  rewrite String.eqb_eq. split; congruence.
Qed.

(** The three loops over the table, as maps. *)
Lemma release_map (user_ip : option string) (ts : Lobby.table_state) :
  Lobby.well_formed ts ->
  fold_left (Lobby.release_step user_ip) ts ts
  = map (fun it => (fst it,
                    if Lobby.opt_eqb (snd it) user_ip then None
                    else snd it)) ts.
Proof.
  intros Hnd.
  apply (fold_rewrite (Lobby.release_step user_ip)
           (fun occ => if Lobby.opt_eqb occ user_ip then None else occ)
           ltac:(intros pre s occ rest Hs; cbn [Lobby.release_step];
                 destruct (Lobby.opt_eqb occ user_ip);
                 [apply dict_set_app; exact Hs | reflexivity])
           ts [] Hnd).
Qed.

Lemma fill_map (ts : Lobby.table_state) :
  Lobby.well_formed ts ->
  Lobby.dev_fill_seats ts
  = map (fun it => (fst it,
                    match snd it with
                    | None => Some "DEV_BOT"
                    | Some x => Some x
                    end)) ts.
Proof.
  intros Hnd. unfold Lobby.dev_fill_seats, Lobby.table_state in *.
  rewrite fold_left_keys.
  apply (fold_rewrite (fun a it => Lobby.fill_step a (fst it))
           (fun occ => match occ with
                       | None => Some "DEV_BOT"
                       | Some x => Some x
                       end)
           ltac:(intros pre s occ rest Hs; cbn [fst]; unfold Lobby.fill_step;
                 rewrite (dict_get_app _ _ _ Hs), dict_get_cons,
                   String.eqb_refl;
                 destruct occ;
                 [reflexivity | apply dict_set_app; exact Hs])
           ts [] Hnd).
Qed.

Lemma clear_map (ts : Lobby.table_state) :
  Lobby.well_formed ts ->
  Lobby.dev_clear_seats ts = map (fun it => (fst it, None)) ts.
Proof.
  intros Hnd. unfold Lobby.dev_clear_seats, Lobby.table_state in *.
  rewrite fold_left_keys.
  apply (fold_rewrite (fun a it => dict_set (fst it) None a)
           (fun _ : option string => None)
           ltac:(intros pre s occ rest Hs; cbn [fst];
                 apply dict_set_app; exact Hs)
           ts [] Hnd).
Qed.

Lemma map_keys {V : Type} (h : V -> V) (d : list (string * V)) :
  map fst (map (fun it => (fst it, h (snd it))) d) = map fst d.
Proof. rewrite map_map. reflexivity. Qed.

Lemma release_keys (user_ip : option string)
  (items acc : list (string * option string)) :
  (forall it, In it items -> In (fst it) (map fst acc)) ->
  map fst (fold_left (Lobby.release_step user_ip) items acc) = map fst acc.
Proof.
  revert acc. induction items as [|[s occ] rest IH]; intros acc Hin;
    [reflexivity|].
  cbn [fold_left].
  assert (Hk : map fst (Lobby.release_step user_ip acc (s, occ))
               = map fst acc).
  { cbn [Lobby.release_step]. destruct (Lobby.opt_eqb occ user_ip);
      [|reflexivity].
    apply dict_set_keys. apply (Hin (s, occ)). left. reflexivity. }
  rewrite IH; [exact Hk|].
  intros it Hit. rewrite Hk. apply Hin. right. exact Hit.
Qed.

Lemma dict_get_Some_key {V : Type} (k : string) (v : V)
  (d : list (string * V)) :
  dict_get k d = Some v -> In k (map fst d).
Proof.
  intros H. apply dict_get_In in H. apply in_map_iff.
  exists (k, v). split; [reflexivity | exact H].
Qed.

(** X13.  [toggle_seat] never adds, removes or reorders a seat of the
    table, answers "error", "ok" or "busy", and leaves the table as it is
    when the seat asked for is not one of its keys. *)
Theorem toggle_seat_keeps_seats (ts : Lobby.table_state) (seat : string)
  (user_ip : option string) :
  map fst (fst (Lobby.toggle_seat ts seat user_ip)) = map fst ts
  /\ In (snd (Lobby.toggle_seat ts seat user_ip)) ["error"; "ok"; "busy"]
  /\ (dict_get seat ts = None ->
      Lobby.toggle_seat ts seat user_ip = (ts, "error")).
Proof.
  unfold Lobby.toggle_seat.
  destruct (dict_get seat ts) as [current|] eqn:Hg;
    [|cbn; tauto].
  pose proof (dict_get_Some_key _ _ _ Hg) as Hin.
  split; [|split; [|discriminate]].
  - destruct (Lobby.opt_eqb current user_ip); cbn [fst].
    + apply dict_set_keys. exact Hin.
    + destruct (negb (Lobby.is_not_None current)); cbn [fst];
        [|reflexivity].
      assert (Hk : map fst (fold_left (Lobby.release_step user_ip) ts ts)
                   = map fst ts).
      { apply release_keys. intros it Hit. apply in_map. exact Hit. }
      rewrite dict_set_keys; [exact Hk | rewrite Hk; exact Hin].
  - destruct (Lobby.opt_eqb current user_ip); [cbn; tauto|].
    destruct (negb (Lobby.is_not_None current)); cbn; tauto.
Qed.

Lemma toggle_seat_keeps_seats_witness :
  dict_get "X" Lobby.TABLE_STATE_initial = None
  /\ Lobby.toggle_seat Lobby.TABLE_STATE_initial "X" (Some "10.0.0.1")
     = (Lobby.TABLE_STATE_initial, "error").
Proof.
  assert (H : dict_get "X" Lobby.TABLE_STATE_initial = None)
    by reflexivity.
  split; [exact H|].
  destruct (toggle_seat_keeps_seats Lobby.TABLE_STATE_initial "X"
              (Some "10.0.0.1")) as (_ & _ & He).
  exact (He H).
Defined.

Lemma occupant_set (ts : Lobby.table_state) (s seat : string)
  (v : option string) :
  Lobby.occupant (dict_set seat v ts) s
  = if String.eqb s seat then v else Lobby.occupant ts s.
Proof.
  unfold Lobby.occupant. rewrite dict_get_set.
  destruct (String.eqb s seat); reflexivity.
Qed.

Lemma occupant_release (ts : Lobby.table_state) (s : string)
  (user_ip : option string) :
  Lobby.well_formed ts ->
  Lobby.occupant (fold_left (Lobby.release_step user_ip) ts ts) s
  = if Lobby.opt_eqb (Lobby.occupant ts s) user_ip
    then match dict_get s ts with
         | Some _ => None
         | None => Lobby.occupant ts s
         end
    else Lobby.occupant ts s.
Proof.
  intros Hnd. rewrite (release_map _ _ Hnd). unfold Lobby.occupant.
  rewrite (dict_get_map
             (fun occ => if Lobby.opt_eqb occ user_ip then None else occ)).
  destruct (dict_get s ts) as [occ|]; cbn [option_map].
  - destruct (Lobby.opt_eqb occ user_ip); reflexivity.
  - destruct (Lobby.opt_eqb None user_ip); reflexivity.
Qed.

(** X14.  A seat held by somebody else is never touched: whatever seat a
    user toggles, every seat occupied by another address keeps its
    occupant, and toggling such a seat itself is answered "busy" with the
    table unchanged. *)
Theorem toggle_seat_spares_others (ts : Lobby.table_state)
  (seat s other : string) (user_ip : option string) :
  Lobby.well_formed ts ->
  Lobby.occupant ts s = Some other ->
  user_ip <> Some other ->
  Lobby.occupant (fst (Lobby.toggle_seat ts seat user_ip)) s = Some other
  /\ (s = seat -> Lobby.toggle_seat ts seat user_ip = (ts, "busy")).
Proof.
  intros Hnd Hocc Hne. unfold Lobby.toggle_seat.
  destruct (dict_get seat ts) as [current|] eqn:Hg.
  2:{ split; [exact Hocc|]. intros ->. unfold Lobby.occupant in Hocc.
      rewrite Hg in Hocc. discriminate. }
  assert (Hseat : Lobby.occupant ts seat = current)
    by (unfold Lobby.occupant; rewrite Hg; reflexivity).
  destruct (Lobby.opt_eqb current user_ip) eqn:He.
  - apply opt_eqb_eq in He. subst user_ip. cbn [fst].
    rewrite occupant_set.
    destruct (String.eqb_spec s seat) as [->|Hs].
    + congruence.
    + split; [exact Hocc | contradiction].
  - destruct current as [x|]; cbn [Lobby.is_not_None negb fst].
    + split; [exact Hocc | reflexivity].
    + rewrite occupant_set.
      destruct (String.eqb_spec s seat) as [->|Hs]; [congruence|].
      rewrite (occupant_release _ _ _ Hnd), Hocc.
      destruct (Lobby.opt_eqb (Some other) user_ip) eqn:Ho.
      * apply opt_eqb_eq in Ho. congruence.
      * split; [reflexivity | contradiction].
Qed.

(** X15.  Taking a free seat succeeds and leaves the user on that seat and
    on no other: the seats the user held before are released. *)
Theorem toggle_seat_takes_one_seat (ts : Lobby.table_state)
  (seat a : string) :
  Lobby.well_formed ts ->
  dict_get seat ts = Some None ->
  snd (Lobby.toggle_seat ts seat (Some a)) = "ok"
  /\ Lobby.occupant (fst (Lobby.toggle_seat ts seat (Some a))) seat
     = Some a
  /\ forall s,
       Lobby.occupant (fst (Lobby.toggle_seat ts seat (Some a))) s = Some a
       -> s = seat.
Proof.
  intros Hnd Hg. unfold Lobby.toggle_seat. rewrite Hg.
  cbn [Lobby.opt_eqb Lobby.is_not_None negb fst snd].
  split; [reflexivity|]. split.
  - rewrite occupant_set, String.eqb_refl. reflexivity.
  - intros s. rewrite occupant_set.
    destruct (String.eqb_spec s seat) as [->|Hs]; [reflexivity|].
    rewrite (occupant_release _ _ _ Hnd).
    destruct (Lobby.opt_eqb (Lobby.occupant ts s) (Some a)) eqn:Ho.
    + unfold Lobby.occupant. destruct (dict_get s ts) as [occ|];
        discriminate.
    + intros H. rewrite H in Ho. cbn in Ho. rewrite String.eqb_refl in Ho.
      discriminate.
Qed.

Lemma dict_set_twice {V : Type} (k : string) (v v' : V)
  (d : list (string * V)) :
  dict_set k v (dict_set k v' d) = dict_set k v d.
Proof.
  induction d as [|[k1 v1] r IH]; cbn [dict_set].
  - rewrite String.eqb_refl. reflexivity.
  - destruct (String.eqb k k1) eqn:Hk; cbn [dict_set].
    + rewrite String.eqb_refl. reflexivity.
    + rewrite Hk, IH. reflexivity.
Qed.

Lemma dict_set_same {V : Type} (k : string) (v : V)
  (d : list (string * V)) :
  dict_get k d = Some v -> dict_set k v d = d.
Proof.
  induction d as [|[k1 v1] r IH]; [discriminate|].
  rewrite dict_get_cons. cbn [dict_set].
  destruct (String.eqb_spec k k1) as [->|Hk].
  - intros [= ->]. reflexivity.
  - intros H. rewrite (IH H). reflexivity.
Qed.

(** X16.  Toggling twice is a round trip: a user who holds no seat and
    takes a free one, then toggles it again, leaves the table exactly as it
    was. *)
Theorem toggle_seat_twice (ts : Lobby.table_state) (seat a : string) :
  Lobby.well_formed ts ->
  dict_get seat ts = Some None ->
  (forall s, Lobby.occupant ts s <> Some a) ->
  Lobby.toggle_seat (fst (Lobby.toggle_seat ts seat (Some a))) seat (Some a)
  = (ts, "ok").
Proof.
  intros Hnd Hg Hfree.
  assert (Hrel : fold_left (Lobby.release_step (Some a)) ts ts = ts).
  { rewrite (release_map _ _ Hnd). rewrite <- (map_id ts) at 2.
    apply map_ext_in. intros [s occ] Hin. cbn [fst snd].
    destruct (Lobby.opt_eqb occ (Some a)) eqn:Ho; [|reflexivity].
    apply opt_eqb_eq in Ho. subst occ. exfalso. apply (Hfree s).
    unfold Lobby.occupant. rewrite (dict_get_In_key _ _ _ Hnd Hin).
    reflexivity. }
  unfold Lobby.toggle_seat at 2. rewrite Hg.
  cbn [Lobby.opt_eqb Lobby.is_not_None negb fst]. rewrite Hrel.
  unfold Lobby.toggle_seat. rewrite dict_get_set, String.eqb_refl.
  cbn [Lobby.opt_eqb]. rewrite String.eqb_refl, dict_set_twice.
  rewrite (dict_set_same _ _ _ Hg). reflexivity.
Qed.

(** *** What the lobby reports *)

Lemma lobby_count (user_ip : option string) (ts : Lobby.table_state) :
  forall info n,
    snd (fold_left (Lobby.lobby_step user_ip) ts (info, n))
    = n + Z.of_nat (length (List.filter Lobby.is_not_None (map snd ts))).
Proof.
  induction ts as [|[seat occ] rest IH]; intros info n; [cbn; lia|].
  cbn [fold_left map snd List.filter]. unfold Lobby.lobby_step at 2.
  destruct occ as [x|]; cbn [Lobby.is_not_None negb].
  - destruct (Lobby.opt_eqb (Some x) user_ip);
      [|destruct (Lobby.opt_eqb (Some x) (Some "DEV_BOT"))];
      rewrite IH; cbn [length]; lia.
  - rewrite IH. lia.
Qed.

Lemma dealer_total (round : Z) :
  exists d, index ["N"; "E"; "S"; "W"] ((round - 1) mod 4) = Ret d.
Proof.
  assert (H : 0 <= (round - 1) mod 4 < 4) by (apply Z.mod_pos_bound; lia).
  assert (Hc : (round - 1) mod 4 = 0 \/ (round - 1) mod 4 = 1
               \/ (round - 1) mod 4 = 2 \/ (round - 1) mod 4 = 3) by lia.
  destruct Hc as [-> | [-> | [-> | ->]]]; eexists; reflexivity.
Qed.

(** [get_lobby_status] always answers, and what it answers. *)
Lemma lobby_status_shape (ts : Lobby.table_state) (round : Z)
  (user_ip : option string) :
  exists info d label,
    vulnerability_label round = Ret label
    /\ Lobby.get_lobby_status ts round user_ip
       = Ret {| Lobby.seats := info;
                Lobby.round := round;
                Lobby.ready_to_play :=
                  Z.of_nat (length (List.filter Lobby.is_not_None
                                      (map snd ts))) =? 4;
                Lobby.dealer := d;
                Lobby.vulnerability := label |}.
Proof.
  unfold Lobby.get_lobby_status.
  pose proof (lobby_count user_ip ts [] 0) as Hn.
  destruct (fold_left (Lobby.lobby_step user_ip) ts ([], 0)) as [info n].
  cbn [snd] in Hn. subst n.
  destruct (dealer_total round) as (d & ->).
  destruct (get_vulnerability_total round) as (v & Hv & Hr).
  unfold vulnerability_label. rewrite Hv.
  assert (Hc : v = 0 \/ v = 1 \/ v = 2 \/ v = 3) by lia.
  destruct Hc as [-> | [-> | [-> | ->]]]; eexists info, d, _;
    (split; [reflexivity|]); reflexivity.
Qed.

(** X17.  The vulnerability the lobby shows for a round is the label
    [solve] puts in its envelope for the same round, although the two are
    computed from two different tables; and [get_lobby_status] answers for
    every table, round and address. *)
Theorem lobby_vulnerability_agrees (ts : Lobby.table_state) (round : Z)
  (user_ip : option string) :
  exists st,
    Lobby.get_lobby_status ts round user_ip = Ret st
    /\ vulnerability_label round = Ret (Lobby.vulnerability st)
    /\ Lobby.round st = round.
Proof.
  destruct (lobby_status_shape ts round user_ip)
    as (info & d & label & Hl & ->).
  eexists. split; [reflexivity|]. split; [exact Hl | reflexivity].
Qed.

Lemma filter_all {A : Type} (f : A -> bool) (l : list A) :
  length (List.filter f l) = length l <-> Forall (fun x => f x = true) l.
Proof.
  induction l as [|x l IH]; cbn [List.filter length].
  - split; [constructor | reflexivity].
  - pose proof (List.filter_length_le f l) as Hle.
    destruct (f x) eqn:Hx; cbn [length].
    + split.
      * intros H. constructor; [exact Hx | apply IH; lia].
      * intros H. inversion H; subst. f_equal. apply IH. assumption.
    + split; [lia|]. intros H. inversion H; subst. congruence.
Qed.

(** X18.  With the four seats of the table, the lobby reports
    ready_to_play exactly when no seat is free, whoever asks, and that is
    exactly when the analyzer page is served without the solo mode. *)
Theorem lobby_ready_iff (ts : Lobby.table_state) (round : Z)
  (user_ip : option string) :
  length ts = 4%nat ->
  exists st,
    Lobby.get_lobby_status ts round user_ip = Ret st
    /\ (Lobby.ready_to_play st = true
        <-> Forall (fun it => snd it <> None) ts)
    /\ (Lobby.ready_to_play st = true
        <-> Lobby.analyzer ts round None = Lobby.Render "analyzer.html" round).
Proof.
  intros Hlen.
  destruct (lobby_status_shape ts round user_ip)
    as (info & d & label & Hl & ->).
  eexists. split; [reflexivity|]. cbn [Lobby.ready_to_play].
  pose proof (List.filter_length_le Lobby.is_not_None (map snd ts)) as Hle.
  rewrite length_map, Hlen in Hle.
  pose proof (filter_all Lobby.is_not_None (map snd ts)) as Hall.
  rewrite length_map, Hlen in Hall. split.
  - rewrite Z.eqb_eq. split.
    + intros H. assert (H4 : length (List.filter Lobby.is_not_None
                                       (map snd ts)) = 4%nat) by lia.
      apply Hall in H4. apply Forall_map in H4.
      eapply Forall_impl; [exact H4|]. intros [s [x|]]; cbn;
        [discriminate | discriminate].
    + intros H. assert (H4 : length (List.filter Lobby.is_not_None
                                       (map snd ts)) = 4%nat).
      { apply Hall. apply Forall_map. eapply Forall_impl; [exact H|].
        intros [s [x|]]; cbn; [reflexivity | congruence]. }
      lia.
  - unfold Lobby.analyzer. cbn [Lobby.opt_eqb negb andb].
    rewrite Z.eqb_eq. split.
    + intros H. replace (length (List.filter Lobby.is_not_None
                                   (map snd ts))) with 4%nat by lia.
      reflexivity.
    + destruct (length (List.filter Lobby.is_not_None (map snd ts)) <? 4)%nat
        eqn:Hlt; [discriminate|].
      apply Nat.ltb_ge in Hlt. lia.
Qed.

Lemma lobby_ready_iff_witness :
  length (Lobby.dev_fill_seats Lobby.TABLE_STATE_initial) = 4%nat
  /\ Lobby.analyzer (Lobby.dev_fill_seats Lobby.TABLE_STATE_initial) 3 None
     = Lobby.Render "analyzer.html" 3.
Proof.
  assert (H : length (Lobby.dev_fill_seats Lobby.TABLE_STATE_initial)
              = 4%nat) by reflexivity.
  split; [exact H|].
  destruct (lobby_ready_iff (Lobby.dev_fill_seats Lobby.TABLE_STATE_initial)
              3 (Some "10.0.0.1") H) as (st & Hst & _ & Hr).
  apply Hr. injection Hst as <-. reflexivity.
Defined.

(** X19.  [dev_fill_seats] puts "DEV_BOT" on every free seat and keeps
    every occupant and every key; with the four seats of the table the
    analyzer page is then served and the lobby reports ready_to_play. *)
Theorem dev_fill_seats_readies (ts : Lobby.table_state) (round : Z)
  (user_ip mode : option string) :
  Lobby.well_formed ts ->
  length ts = 4%nat ->
  (forall s occ,
      dict_get s ts = Some occ ->
      Lobby.occupant (Lobby.dev_fill_seats ts) s
      = Some (default "DEV_BOT" occ))
  /\ map fst (Lobby.dev_fill_seats ts) = map fst ts
  /\ Lobby.analyzer (Lobby.dev_fill_seats ts) round mode
     = Lobby.Render "analyzer.html" round
  /\ exists st,
       Lobby.get_lobby_status (Lobby.dev_fill_seats ts) round user_ip
       = Ret st
       /\ Lobby.ready_to_play st = true.
Proof.
  intros Hnd Hlen. rewrite (fill_map _ Hnd).
  set (h := fun occ : option string =>
              match occ with
              | None => Some "DEV_BOT"
              | Some x => Some x
              end).
  change (map (fun it : string * option string =>
                 (fst it,
                  match snd it with
                  | None => Some "DEV_BOT"
                  | Some x => Some x
                  end)) ts)
    with (map (fun it => (fst it, h (snd it))) ts).
  assert (Hcount : length (List.filter Lobby.is_not_None
                             (map snd (map (fun it => (fst it, h (snd it)))
                                         ts))) = 4%nat).
  { transitivity (length (map snd (map (fun it => (fst it, h (snd it)))
                                     ts)));
      [|rewrite !length_map; exact Hlen].
    apply filter_all. apply Forall_map. apply Forall_map.
    apply Forall_forall. intros [s [x|]] _; reflexivity. }
  split; [|split; [|split]].
  - intros s occ Hs. unfold Lobby.occupant. rewrite (dict_get_map h), Hs.
    destruct occ; reflexivity.
  - apply map_keys.
  - unfold Lobby.analyzer. rewrite Hcount.
    destruct (Lobby.opt_eqb mode (Some "solo")); reflexivity.
  - destruct (lobby_status_shape (map (fun it => (fst it, h (snd it))) ts)
                round user_ip) as (info & d & label & _ & ->).
    eexists. split; [reflexivity|]. cbn [Lobby.ready_to_play].
    rewrite Hcount. reflexivity.
Qed.

Lemma dev_fill_seats_readies_witness :
  Lobby.well_formed [("N", Some "10.0.0.1"); ("S", None); ("E", None);
                     ("W", None)]
  /\ Lobby.occupant
       (Lobby.dev_fill_seats [("N", Some "10.0.0.1"); ("S", None);
                              ("E", None); ("W", None)]) "N"
     = Some "10.0.0.1"
  /\ Lobby.occupant
       (Lobby.dev_fill_seats [("N", Some "10.0.0.1"); ("S", None);
                              ("E", None); ("W", None)]) "S"
     = Some "DEV_BOT".
Proof.
  assert (H : Lobby.well_formed [("N", Some "10.0.0.1"); ("S", None);
                                 ("E", None); ("W", None)]).
  { unfold Lobby.well_formed. cbn [map fst].
    repeat (constructor; [cbn; intuition discriminate|]). constructor. }
  split; [exact H|].
  destruct (dev_fill_seats_readies _ 1 None None H eq_refl) as (Hocc & _).
  split; [exact (Hocc "N" _ eq_refl) | exact (Hocc "S" _ eq_refl)].
Defined.

(** X20.  [dev_clear_seats] frees every seat and keeps the keys; the
    analyzer page then redirects home unless the solo mode is asked for. *)
Theorem dev_clear_seats_frees (ts : Lobby.table_state) (round : Z)
  (mode : option string) :
  Lobby.well_formed ts ->
  (forall s, Lobby.occupant (Lobby.dev_clear_seats ts) s = None)
  /\ map fst (Lobby.dev_clear_seats ts) = map fst ts
  /\ (mode <> Some "solo" ->
      Lobby.analyzer (Lobby.dev_clear_seats ts) round mode
      = Lobby.Redirect "home").
Proof.
  intros Hnd. rewrite (clear_map _ Hnd). split; [|split].
  - intros s. unfold Lobby.occupant.
    rewrite (dict_get_map (fun _ : option string => @None string)).
    destruct (dict_get s ts); reflexivity.
  - apply (map_keys (fun _ : option string => @None string)).
  - intros Hm. unfold Lobby.analyzer.
    destruct (Lobby.opt_eqb mode (Some "solo")) eqn:He;
      [apply opt_eqb_eq in He; contradiction|].
    assert (H0 : List.filter Lobby.is_not_None
                   (map snd (map (fun it : string * option string =>
                                    (fst it, @None string)) ts)) = []).
    { clear. induction ts as [|it ts IH]; [reflexivity | exact IH]. }
    rewrite H0. reflexivity.
Qed.

Lemma dev_clear_seats_frees_witness :
  Lobby.well_formed [("N", Some "10.0.0.1"); ("S", None); ("E", None);
                     ("W", Some "DEV_BOT")]
  /\ None <> Some "solo"
  /\ Lobby.analyzer
       (Lobby.dev_clear_seats [("N", Some "10.0.0.1"); ("S", None);
                               ("E", None); ("W", Some "DEV_BOT")]) 1 None
     = Lobby.Redirect "home".
Proof.
  assert (H : Lobby.well_formed [("N", Some "10.0.0.1"); ("S", None);
                                 ("E", None); ("W", Some "DEV_BOT")]).
  { unfold Lobby.well_formed. cbn [map fst].
    repeat (constructor; [cbn; intuition discriminate|]). constructor. }
  assert (Hm : @None string <> Some "solo") by discriminate.
  split; [exact H|]. split; [exact Hm|].
  destruct (dev_clear_seats_frees _ 1 None H) as (_ & _ & Ha).
  exact (Ha Hm).
Defined.

(** ** The history *)


Lemma edit_loop_unknown (log : list Main.entry) (entry_id : string)
  (new_round : option Z) (new_bid_contract : option string) :
  (forall x, In x log -> Main.id x <> entry_id) ->
  History.edit_loop log entry_id new_round new_bid_contract
  = (log, History.Not_found).
Proof.
  intros Hlog. induction log as [|x log IH]; [reflexivity|].
  cbn [History.edit_loop].
  assert (Hx : Main.id x <> entry_id) by (apply Hlog; left; reflexivity).
  apply String.eqb_neq in Hx. rewrite Hx.
  rewrite IH by (intros y Hy; apply Hlog; right; exact Hy).
  reflexivity.
Qed.

(** X21.  Editing an id that no entry of the log carries is answered with
    the not-found error and changes nothing. *)
Theorem edit_history_unknown_id (g : Main.globals) (entry_id : string)
  (new_round : option Z) (new_bid_contract : option string) :
  (forall x, In x (Main.HISTORY_LOG g) -> Main.id x <> entry_id) ->
  History.edit_history g entry_id new_round new_bid_contract
  = (g, History.Not_found).
Proof.
  intros H. unfold History.edit_history.
  rewrite (edit_loop_unknown _ _ _ _ H). destruct g; reflexivity.
Qed.

Lemma edit_history_unknown_id_witness :
  (forall x, In x (Main.HISTORY_LOG Main.initial_globals) ->
             Main.id x <> "id-1")
  /\ History.edit_history Main.initial_globals "id-1" (Some 5) None
     = (Main.initial_globals, History.Not_found).
Proof.
  assert (H : forall x, In x (Main.HISTORY_LOG Main.initial_globals) ->
                        Main.id x <> "id-1")
    by (intros x Hx; simpl in Hx; contradiction).
  split; [exact H|].
  exact (edit_history_unknown_id Main.initial_globals "id-1" (Some 5) None
           H).
Defined.

(** X22.  An edit touches the round and the declared contract only: the
    log keeps its length, and the id, time, contract and score of every
    entry, in order; the round in play and the hands are not changed. *)
Theorem edit_history_keeps_results (g : Main.globals) (entry_id : string)
  (new_round : option Z) (new_bid_contract : option string) :
  let g' := fst (History.edit_history g entry_id new_round
                   new_bid_contract) in
  map Main.id (Main.HISTORY_LOG g') = map Main.id (Main.HISTORY_LOG g)
  /\ map Main.time (Main.HISTORY_LOG g') = map Main.time (Main.HISTORY_LOG g)
  /\ map Main.contract (Main.HISTORY_LOG g')
     = map Main.contract (Main.HISTORY_LOG g)
  /\ map Main.score (Main.HISTORY_LOG g')
     = map Main.score (Main.HISTORY_LOG g)
  /\ length (Main.HISTORY_LOG g') = length (Main.HISTORY_LOG g)
  /\ Main.GLOBAL_CONFIG_round g' = Main.GLOBAL_CONFIG_round g
  /\ Main.CURRENT_HANDS g' = Main.CURRENT_HANDS g.
Proof.
  unfold History.edit_history.
  assert (H : forall log,
             let log' := fst (History.edit_loop log entry_id new_round
                                new_bid_contract) in
             map Main.id log' = map Main.id log
             /\ map Main.time log' = map Main.time log
             /\ map Main.contract log' = map Main.contract log
             /\ map Main.score log' = map Main.score log
             /\ length log' = length log).
  { induction log as [|x log IH]; [cbn; tauto|].
    cbn [History.edit_loop].
    destruct (String.eqb (Main.id x) entry_id).
    - destruct new_round, new_bid_contract; cbn; tauto.
    - destruct (History.edit_loop log entry_id new_round new_bid_contract)
        as [log' a].
      cbn [fst] in IH. destruct IH as (H1 & H2 & H3 & H4 & H5).
      cbn [fst map length]. rewrite H1, H2, H3, H4, H5. tauto. }
  specialize (H (Main.HISTORY_LOG g)).
  destruct (History.edit_loop (Main.HISTORY_LOG g) entry_id new_round
              new_bid_contract) as [log' a].
  cbn [fst Main.HISTORY_LOG Main.GLOBAL_CONFIG_round Main.CURRENT_HANDS]
    in *.
  tauto.
Qed.


(** ** The solve handler and the history together *)

Section ApiRuns.

Variable lib : dds.
Variable UnicodeDecodeError : list byte -> exn.

#[local] Abbreviation solve := (Solver.solve lib UnicodeDecodeError).
#[local] Abbreviation solve_api := (Main.solve_api lib UnicodeDecodeError).

(** The handler on a run that ends with status "ok". *)
Lemma solve_api_ok (g : Main.globals) (data : list (string * string))
  (uuid4 now : string) :
  status (solve (Main.CURRENT_HANDS g) (Main.GLOBAL_CONFIG_round g)) = "ok" ->
  solve_api g data uuid4 now
  = ({| Main.GLOBAL_CONFIG_round := Main.GLOBAL_CONFIG_round g;
        Main.HISTORY_LOG :=
          (Main.HISTORY_LOG g
           ++ [{| Main.id := uuid4;
                  Main.time := now;
                  Main.round := Main.GLOBAL_CONFIG_round g;
                  Main.contract :=
                    optimal_contract
                      (par_result (solve (Main.CURRENT_HANDS g)
                                     (Main.GLOBAL_CONFIG_round g)));
                  Main.score :=
                    score
                      (par_result (solve (Main.CURRENT_HANDS g)
                                     (Main.GLOBAL_CONFIG_round g)));
                  Main.bid_contract :=
                    default "none" (dict_get "bid_contract" data) |}])%list;
        Main.CURRENT_HANDS := Main.CURRENT_HANDS g |},
     solve (Main.CURRENT_HANDS g) (Main.GLOBAL_CONFIG_round g)).
Proof.
  intros Hs. unfold Main.solve_api. rewrite Hs. reflexivity.
Qed.

(** X24.  A failure of the par stage alone is still written to the
    history: when [CalcDDtable] returns 1 and [Par] a code other than 1, the
    handler appends one entry, with the round in play, the contract "-" and
    the score "0". *)
Theorem solve_api_logs_par_failure (g : Main.globals)
  (data : list (string * string)) (uuid4 now : string) (res_par : Z)
  (table table' : ddTableResults) (pres : parResults) :
  CalcDDtable_returns lib (Main.CURRENT_HANDS g) 1 table ->
  Par_returns lib table (Main.GLOBAL_CONFIG_round g) res_par table' pres ->
  res_par <> 1 ->
  Main.HISTORY_LOG (fst (solve_api g data uuid4 now))
  = (Main.HISTORY_LOG g
     ++ [{| Main.id := uuid4;
            Main.time := now;
            Main.round := Main.GLOBAL_CONFIG_round g;
            Main.contract := "-";
            Main.score := "0";
            Main.bid_contract :=
              default "none" (dict_get "bid_contract" data) |}])%list.
Proof.
  intros Hdd (vul_val & Hv & Hpar) Hne.
  destruct (label_of_round _ _ Hv) as (vuln_str & Hl & _).
  pose proof (run_par_stage lib UnicodeDecodeError _ _ _ _ _ _ _ _
                Hdd Hv Hl Hpar) as Hrun.
  apply Z.eqb_neq in Hne. rewrite Hne in Hrun.
  assert (Hs : solve (Main.CURRENT_HANDS g) (Main.GLOBAL_CONFIG_round g)
               = result_data
                   (Solver.solve_run lib UnicodeDecodeError
                      (Main.CURRENT_HANDS g) (Main.GLOBAL_CONFIG_round g)))
    by reflexivity.
  rewrite Hrun in Hs. cbn [result_data fst snd] in Hs.
  rewrite solve_api_ok by (rewrite Hs; reflexivity).
  cbn [fst Main.HISTORY_LOG]. rewrite Hs. reflexivity.
Qed.


End ApiRuns.

(** ** The further properties at sample inputs *)

Lemma error_envelope_is_bare_witness :
  status (solve Samples.engine_dd_fails Samples.decode_error
            Main.initial_hands 1) <> "ok"
  /\ dd_table (solve Samples.engine_dd_fails Samples.decode_error
                 Main.initial_hands 1) = []
  /\ message (solve Samples.engine_dd_fails Samples.decode_error
                Main.initial_hands 1) <> "".
Proof.
  assert (H : status (solve Samples.engine_dd_fails Samples.decode_error
                        Main.initial_hands 1) <> "ok")
    by (vm_compute; discriminate).
  split; [exact H|].
  destruct (error_envelope_is_bare Samples.engine_dd_fails
              Samples.decode_error Main.initial_hands 1 H)
    as (_ & Hm & Hd & _).
  split; [exact Hd | exact Hm].
Defined.

Lemma toggle_seat_spares_others_witness :
  Lobby.well_formed [("N", Some "10.0.0.1"); ("S", Some "10.0.0.2");
                     ("E", None); ("W", None)]
  /\ Some "10.0.0.1" <> Some "10.0.0.2"
  /\ Lobby.occupant
       (fst (Lobby.toggle_seat
               [("N", Some "10.0.0.1"); ("S", Some "10.0.0.2");
                ("E", None); ("W", None)] "E" (Some "10.0.0.1"))) "S"
     = Some "10.0.0.2"
  /\ Lobby.toggle_seat
       [("N", Some "10.0.0.1"); ("S", Some "10.0.0.2"); ("E", None);
        ("W", None)] "S" (Some "10.0.0.1")
     = ([("N", Some "10.0.0.1"); ("S", Some "10.0.0.2"); ("E", None);
         ("W", None)], "busy").
Proof.
  assert (H : Lobby.well_formed [("N", Some "10.0.0.1");
                                 ("S", Some "10.0.0.2"); ("E", None);
                                 ("W", None)]).
  { unfold Lobby.well_formed. cbn [map fst].
    repeat (constructor; [cbn; intuition discriminate|]). constructor. }
  assert (Hne : Some "10.0.0.1" <> Some "10.0.0.2") by discriminate.
  split; [exact H|]. split; [exact Hne|].
  destruct (toggle_seat_spares_others _ "E" "S" "10.0.0.2"
              (Some "10.0.0.1") H eq_refl Hne) as [H1 _].
  destruct (toggle_seat_spares_others _ "S" "S" "10.0.0.2"
              (Some "10.0.0.1") H eq_refl Hne) as [_ H2].
  split; [exact H1 | exact (H2 eq_refl)].
Defined.

Lemma toggle_seat_takes_one_seat_witness :
  Lobby.well_formed [("N", Some "10.0.0.1"); ("S", Some "10.0.0.2");
                     ("E", None); ("W", None)]
  /\ dict_get "E" [("N", Some "10.0.0.1"); ("S", Some "10.0.0.2");
                   ("E", None); ("W", None)] = Some None
  /\ Lobby.occupant
       (fst (Lobby.toggle_seat
               [("N", Some "10.0.0.1"); ("S", Some "10.0.0.2");
                ("E", None); ("W", None)] "E" (Some "10.0.0.1"))) "E"
     = Some "10.0.0.1".
Proof.
  assert (H : Lobby.well_formed [("N", Some "10.0.0.1");
                                 ("S", Some "10.0.0.2"); ("E", None);
                                 ("W", None)]).
  { unfold Lobby.well_formed. cbn [map fst].
    repeat (constructor; [cbn; intuition discriminate|]). constructor. }
  split; [exact H|]. split; [reflexivity|].
  destruct (toggle_seat_takes_one_seat _ "E" "10.0.0.1" H eq_refl)
    as (_ & Hocc & _).
  exact Hocc.
Defined.

Lemma toggle_seat_twice_witness :
  Lobby.well_formed Lobby.TABLE_STATE_initial
  /\ dict_get "N" Lobby.TABLE_STATE_initial = Some None
  /\ (forall s, Lobby.occupant Lobby.TABLE_STATE_initial s
                <> Some "10.0.0.1")
  /\ Lobby.toggle_seat
       (fst (Lobby.toggle_seat Lobby.TABLE_STATE_initial "N"
               (Some "10.0.0.1"))) "N" (Some "10.0.0.1")
     = (Lobby.TABLE_STATE_initial, "ok").
Proof.
  assert (H : Lobby.well_formed Lobby.TABLE_STATE_initial).
  { unfold Lobby.well_formed. cbn [map fst Lobby.TABLE_STATE_initial].
    repeat (constructor; [cbn; intuition discriminate|]). constructor. }
  assert (Hfree : forall s, Lobby.occupant Lobby.TABLE_STATE_initial s
                            <> Some "10.0.0.1").
  { intros s. unfold Lobby.occupant, Lobby.TABLE_STATE_initial, dict_get.
    repeat (destruct (String.eqb s _); [discriminate|]). discriminate. }
  split; [exact H|]. split; [reflexivity|]. split; [exact Hfree|].
  exact (toggle_seat_twice _ "N" "10.0.0.1" H eq_refl Hfree).
Defined.


Lemma solve_api_logs_par_failure_witness :
  CalcDDtable_returns Samples.engine_par_fails Main.initial_hands 1
    Samples.table_13
  /\ -1 <> 1
  /\ Main.HISTORY_LOG
       (fst (Main.solve_api Samples.engine_par_fails Samples.decode_error
               Main.initial_globals [("bid_contract", "3NT")] "id-1"
               "12:00:00"))
     = [{| Main.id := "id-1"; Main.time := "12:00:00"; Main.round := 1;
           Main.contract := "-"; Main.score := "0";
           Main.bid_contract := "3NT" |}].
Proof.
  assert (H1 : CalcDDtable_returns Samples.engine_par_fails
                 Main.initial_hands 1 Samples.table_13)
    by (split; reflexivity).
  assert (H2 : Par_returns Samples.engine_par_fails Samples.table_13 1 (-1)
                 Samples.table_13 new_parResults)
    by (exists 0; split; reflexivity).
  assert (H3 : -1 <> 1) by lia.
  split; [exact H1|]. split; [exact H3|].
  exact (solve_api_logs_par_failure Samples.engine_par_fails
           Samples.decode_error Main.initial_globals
           [("bid_contract", "3NT")] "id-1" "12:00:00" (-1)
           Samples.table_13 Samples.table_13 new_parResults H1 H2 H3).
Defined.

